(** * Prince chatbot (app2.py): the conversation orchestration engine

    A shallow embedding of [PrinceChatbot.process_message] and of the
    methods it calls ([AIHandler.generate_response], the sqlite accessors,
    [log_audit]), followed by the properties of the dialogue state machine.

    Python strings are [string]s of bytes, [str.lower] and [str.strip] act
    on the ASCII range.  Python dictionaries are association lists in
    insertion order.  A method is a function from the state of the program
    (the chatbot object, the sqlite tables, the audit file) to an outcome, a
    new state and the list of calls it made; an exception is an outcome
    [Raise] that carries the text of the exception. *)

From Stdlib Require Import String Ascii List ZArith Bool Lia DecimalString.
Import ListNotations.
Open Scope string_scope.
#[local] Set Warnings "-register-all".

(** ** Python strings *)

Module PyStr.

Definition nl : string := String "010" EmptyString.

Definition lower_char (c : ascii) : ascii :=
  let n := nat_of_ascii c in
  if Nat.leb 65 n && Nat.leb n 90 then ascii_of_nat (n + 32) else c.

(** [s.lower()] *)
Fixpoint lower (s : string) : string :=
  match s with
  | EmptyString => EmptyString
  | String c r => String (lower_char c) (lower r)
  end.

(** The ASCII characters for which [str.isspace] holds. *)
Definition is_space (c : ascii) : bool :=
  let n := nat_of_ascii c in
  (Nat.leb 9 n && Nat.leb n 13) || (Nat.leb 28 n && Nat.leb n 32).

Fixpoint lstrip_chars (l : list ascii) : list ascii :=
  match l with
  | [] => []
  | c :: r => if is_space c then lstrip_chars r else l
  end.

(** [s.strip()] *)
Definition strip (s : string) : string :=
  string_of_list_ascii
    (rev (lstrip_chars (rev (lstrip_chars (list_ascii_of_string s))))).

(** [needle in hay] *)
Fixpoint contains (needle hay : string) : bool :=
  prefix needle hay
  || match hay with
     | EmptyString => false
     | String _ r => contains needle r
     end.

(** [sep.join(l)] *)
Definition join (sep : string) (l : list string) : string :=
  String.concat sep l.

(** Truth value of a string: it is not empty. *)
Definition nonempty (s : string) : bool :=
  match s with EmptyString => false | String _ _ => true end.

End PyStr.
Import PyStr.

(** ** Python values and dictionaries *)

Inductive pyval : Type :=
| PNone
| PBool (b : bool)
| PInt (z : Z)
| PStr (s : string)
| PDict (d : list (string * pyval)).

Definition dict : Type := list (string * pyval).

Fixpoint dict_get (k : string) (d : dict) : option pyval :=
  match d with
  | [] => None
  | (k', v) :: r => if String.eqb k k' then Some v else dict_get k r
  end.

(** [k in d] *)
Definition dict_mem (k : string) (d : dict) : bool :=
  match dict_get k d with Some _ => true | None => false end.

(** [d[k] = v]: the value is replaced in place, a new key goes last. *)
Fixpoint dict_set (k : string) (v : pyval) (d : dict) : dict :=
  match d with
  | [] => [(k, v)]
  | (k', v') :: r =>
      if String.eqb k k' then (k', v) :: r else (k', v') :: dict_set k v r
  end.

(** Truth value of a Python object, as tested by [if x:] and [not x]. *)
Definition truthy (v : pyval) : bool :=
  match v with
  | PNone => false
  | PBool b => b
  | PInt z => negb (Z.eqb z 0)
  | PStr s => nonempty s
  | PDict [] => false
  | PDict (_ :: _) => true
  end.

(** ** Data model *)

Record Agent := {
  agent_id : Z;
  agent_name : string;
  agent_email : string;
  agent_expertise : string;
  agent_status : string;
  agent_last_active : Z
}.

(** The dictionary [get_available_agent] builds from the selected row. *)
Record AgentInfo := {
  ai_id : Z;
  ai_name : string;
  ai_email : string;
  ai_expertise : string
}.

Record Customer := {
  cust_id : Z;
  cust_name : string;
  cust_phone : string;
  cust_email : string;
  cust_dob : string;
  cust_company_preference : string;
  cust_created_at : string
}.

(** A row of [chat_sessions]. *)
Record ChatSession := {
  cs_customer_id : pyval;
  cs_context : string;
  cs_start_time : Z
}.

(** A document of the vector index; only its [page_content] is read. *)
Record Document := { page_content : string }.

(** A decoded JSON value, as [json.loads] builds it. *)
Inductive json : Type :=
| JNull
| JBool (b : bool)
| JInt (z : Z)
| JFloat (literal : string)
| JStr (s : string)
| JList (l : list json)
| JObj (d : list (string * json)).

(** [type(v).__name__] *)
Definition type_name (v : json) : string :=
  match v with
  | JNull => "NoneType"
  | JBool _ => "bool"
  | JInt _ => "int"
  | JFloat _ => "float"
  | JStr _ => "str"
  | JList _ => "list"
  | JObj _ => "dict"
  end.

(** The value of a key among the pairs of an object. *)
Fixpoint jget (k : string) (d : list (string * json)) : option json :=
  match d with
  | [] => None
  | (k', v) :: r => if String.eqb k k' then Some v else jget k r
  end.

(** An entry of the [organic] list of the search reply, once line 79 has
    read it: a JSON object, reduced to its string fields. *)
Definition SearchResult : Type := list (string * string).

(** [result.get("snippet", "")] *)
Fixpoint result_get (k dflt : string) (r : SearchResult) : string :=
  match r with
  | [] => dflt
  | (k', v) :: r' => if String.eqb k k' then v else result_get k dflt r'
  end.

(** ** Outcomes, state, calls *)

Inductive Result (A : Type) : Type :=
| Ok (a : A)
| Raise (e : string).
Arguments Ok {A} a.
Arguments Raise {A} e.

Definition is_ok {A} (r : Result A) : bool :=
  match r with Ok _ => true | Raise _ => false end.

(** [v.get(k, dflt)], a method of dictionaries only. *)
Definition json_get (k : string) (dflt v : json) : Result json :=
  match v with
  | JObj d => Ok (match jget k d with Some x => x | None => dflt end)
  | _ => Raise ("'" ++ type_name v ++ "' object has no attribute 'get'")
  end.

(** [for result in v]: the items, or the TypeError. *)
Definition iterate (v : json) : Result (list json) :=
  match v with
  | JList l => Ok l
  | JObj d => Ok (map (fun kv => JStr (fst kv)) d)
  | JStr s =>
      Ok (map (fun c => JStr (String c EmptyString)) (list_ascii_of_string s))
  | _ => Raise ("'" ++ type_name v ++ "' object is not iterable")
  end.

(** The values of a generator [f x for x in l], up to its first exception. *)
Fixpoint collect (f : json -> Result json) (l : list json) : Result (list json) :=
  match l with
  | [] => Ok []
  | x :: r =>
      match f x with
      | Raise e => Raise e
      | Ok v =>
          match collect f r with
          | Raise e => Raise e
          | Ok vs => Ok (v :: vs)
          end
      end
  end.

(** The check of [str.join] on its items, from item [i] on. *)
Fixpoint str_items (i : nat) (l : list json) : Result (list string) :=
  match l with
  | [] => Ok []
  | JStr s :: r =>
      match str_items (S i) r with
      | Raise e => Raise e
      | Ok ss => Ok (s :: ss)
      end
  | v :: _ =>
      Raise ("sequence item " ++ NilEmpty.string_of_uint (Nat.to_uint i) ++
             ": expected str instance, " ++ type_name v ++ " found")
  end.

Inductive SqlStmt := SelectAgent | UpdateAgent | SelectCustomer | InsertChatSession.

(** The collaborators as one turn sees them. *)
Record Env := {
  (** [datetime.now()] *)
  now : Z;
  (** [os.environ.get("SERP_API_KEY")] *)
  SERP_API_KEY : option string;
  (** The request to google.serper.dev with this key and query, the reading
      of the reply and [json.loads]: the decoded [response_data], or the
      exception raised on the way. *)
  serper : string -> string -> Result json;
  (** Loading the FAISS index and [retriever.invoke(query)]. *)
  faiss : string -> Result (list Document);
  (** [client.chat.completions.create] on a system prompt and a user
      message, reduced to the content of the first choice. *)
  chat_completion : string -> string -> Result string;
  (** The [sqlite3.Error] a statement raises this turn, if any. *)
  sqlite_error : SqlStmt -> option string
}.

(** The chatbot object ([conversation.chat_history], [conversation.context]),
    the tables of the database and the lines of audit_trail.log. *)
Record State := {
  chat_history : list (string * string);
  context : dict;
  agents : list Agent;
  customers : list Customer;
  chat_sessions : list ChatSession;
  audit_trail : list string
}.

Definition set_chat_history (h : list (string * string)) (s : State) : State :=
  {| chat_history := h; context := context s; agents := agents s;
     customers := customers s; chat_sessions := chat_sessions s;
     audit_trail := audit_trail s |}.

Definition set_context (c : dict) (s : State) : State :=
  {| chat_history := chat_history s; context := c; agents := agents s;
     customers := customers s; chat_sessions := chat_sessions s;
     audit_trail := audit_trail s |}.

Definition set_agents (a : list Agent) (s : State) : State :=
  {| chat_history := chat_history s; context := context s; agents := a;
     customers := customers s; chat_sessions := chat_sessions s;
     audit_trail := audit_trail s |}.

Definition set_chat_sessions (c : list ChatSession) (s : State) : State :=
  {| chat_history := chat_history s; context := context s; agents := agents s;
     customers := customers s; chat_sessions := c;
     audit_trail := audit_trail s |}.

Definition set_audit_trail (a : list string) (s : State) : State :=
  {| chat_history := chat_history s; context := context s; agents := agents s;
     customers := customers s; chat_sessions := chat_sessions s;
     audit_trail := a |}.

(** What a turn does, in order: the methods entered, the collaborators
    called, and the refusal of line 144. *)
Inductive Event : Type :=
| EGetAvailableAgent
| EUpdateAgentStatus (id : Z) (status : string)
| EGetCustomerInfo (phone : string)
| EHandlePurpose (purpose : string)
| EGenerateResponse (user_input : string)
| EGoogleSearch (query : string)
| ERetrieveKB (query : string)
| EChatCompletion (prompt user_input : string)
| ESaveChatContext (customer_id : pyval) (ctx : string)
| EConsentDenied.

(** ** The monad of methods *)

Definition M (A : Type) : Type := State -> Result A * State * list Event.

Definition ret {A} (a : A) : M A := fun s => (Ok a, s, []).

Definition raise {A} (e : string) : M A := fun s => (Raise e, s, []).

Definition bind {A B} (m : M A) (k : A -> M B) : M B :=
  fun s =>
    match m s with
    | (Ok a, s1, t1) =>
        match k a s1 with
        | (r, s2, t2) => (r, s2, (t1 ++ t2)%list)
        end
    | (Raise e, s1, t1) => (Raise e, s1, t1)
    end.

Definition get : M State := fun s => (Ok s, s, []).

Definition modify (f : State -> State) : M unit := fun s => (Ok tt, f s, []).

Definition emit (e : Event) : M unit := fun s => (Ok tt, s, [e]).

(** [try: m  except Exception as e: h e] *)
Definition try_except {A} (m : M A) (h : string -> M A) : M A :=
  fun s =>
    match m s with
    | (Ok a, s1, t1) => (Ok a, s1, t1)
    | (Raise e, s1, t1) =>
        match h e s1 with
        | (r, s2, t2) => (r, s2, (t1 ++ t2)%list)
        end
    end.

(** An external call whose outcome the environment gives. *)
Definition lift {A} (r : Result A) : M A := fun s => (r, s, []).

Notation "x <- m ;; k" := (bind m (fun x => k))
  (at level 61, m at next level, right associativity).
Notation "m ;; k" := (bind m (fun _ => k))
  (at level 61, right associativity).

Definition outcome {A} (x : Result A * State * list Event) : Result A := fst (fst x).
Definition post {A} (x : Result A * State * list Event) : State := snd (fst x).
Definition calls {A} (x : Result A * State * list Event) : list Event := snd x.

(** ** The program *)

(** [log_audit]: one line of audit_trail.log, [event_type: details]. *)
Definition log_audit (event_type details : string) : M unit :=
  modify (fun s =>
    set_audit_trail
      (audit_trail s ++ [(event_type ++ ": " ++ details)%string])%list s).

(** [ConversationManager.add_message] *)
Definition add_message (role content : string) : M unit :=
  modify (fun s => set_chat_history (chat_history s ++ [(role, content)])%list s).

(** A statement run inside [with sqlite3.connect(...)]: when it raises,
    nothing is committed. *)
Definition sqlite {A} (env : Env) (stmt : SqlStmt) (run : M A) : M A :=
  match sqlite_error env stmt with
  | Some e => raise e
  | None => run
  end.

Module AIHandler.
Section WithJson.

(** [json.dumps] *)
Variable json_dumps : pyval -> string.

Definition google_search (env : Env) (query : string) : M json :=
  emit (EGoogleSearch query) ;;
  match SERP_API_KEY env with
  | None => raise "'SERP_API_KEY'"
  | Some key =>
      try_except
        (response_data <- lift (serper env key query) ;;
         lift (json_get "organic" (JList []) response_data))
        (fun e =>
           log_audit "Error" ("Google search failed: " ++ e) ;;
           ret (JList []))
  end.

Definition retrieve_from_knowledge_base (env : Env) (query : string)
  : M (list Document) :=
  emit (ERetrieveKB query) ;;
  try_except
    (lift (faiss env query))
    (fun e =>
       log_audit "Error" ("Knowledge base retrieval failed: " ++ e) ;;
       ret []).

Definition refined_query (user_input : string) : string :=
  user_input ++ " for Heirs Insurance Group".

(** Line 79 before it joins: [web_results] is iterated, [get] is called on
    every item, and [join] wants strings.  The exception raised on the way,
    or the entries read, each with the snippet it gave. *)
Definition read_results (web_results : json) : Result (list SearchResult) :=
  match iterate web_results with
  | Raise e => Raise e
  | Ok items =>
      match collect (json_get "snippet" (JStr "")) items with
      | Raise e => Raise e
      | Ok values =>
          match str_items 0 values with
          | Raise e => Raise e
          | Ok snippets => Ok (map (fun s => [("snippet", s)]) snippets)
          end
      end
  end.

Definition web_context (web_results : list SearchResult) : string :=
  join nl (map (result_get "snippet" "") web_results).

Definition kb_context (kb_context_docs : list Document) : string :=
  join nl (map page_content kb_context_docs).

Definition no_relevant_information : string := "No relevant information found.".

(** Line 85, the fusion of the two text blocks. *)
Definition search_context (web kb : string) : string :=
  if nonempty web || nonempty kb then web ++ nl ++ kb
  else no_relevant_information.

(** Lines 88 to 102; [customer] is the serialized customer entry. *)
Definition build_prompt (customer fused user_input : string) : string :=
  "You are Prince, an AI assistant for Heirs Insurance Group. " ++ nl ++
  "Customer Info: " ++ customer ++ nl ++
  "Search Context: " ++ fused ++ nl ++
  "User Input: " ++ user_input ++ nl ++
  nl ++
  "Respond naturally while:" ++ nl ++
  "1. Demonstrating emotional intelligence, including empathy." ++ nl ++
  "2. Providing accurate product recommendations." ++ nl ++
  "3. Upselling/cross-selling when possible." ++ nl ++
  "4. Ensuring compliance with Heirs Insurance Group policies." ++ nl ++
  "5. Informing customers of live support options." ++ nl ++
  "6. Collecting any missing KYC data dynamically." ++ nl ++
  "7. Do not provide information that is not of/related to heirs insurance " ++ nl ++
  "8. if asked of the best insurance company always mention Heirs Insurance and state why it's the best with strong evidence" ++ nl ++
  "9. Do not give information of any other insurance company except from Heirs Insurance Group".

(** [context.get('customer', {})] *)
Definition customer_entry (ctx : dict) : pyval :=
  match dict_get "customer" ctx with Some v => v | None => PDict [] end.

Definition generate_response (env : Env) (user_input : string) (ctx : dict)
  : M string :=
  emit (EGenerateResponse user_input) ;;
  web_results <- google_search env (refined_query user_input) ;;
  results <- lift (read_results web_results) ;;
  kb_context_docs <- retrieve_from_knowledge_base env (refined_query user_input) ;;
  let prompt :=
    build_prompt (json_dumps (customer_entry ctx))
      (search_context (web_context results) (kb_context kb_context_docs))
      user_input in
  emit (EChatCompletion prompt user_input) ;;
  lift (chat_completion env prompt user_input).

End WithJson.
End AIHandler.

Module PrinceChatbot.
Section WithJson.

Variable json_dumps : pyval -> string.

Definition handle_purpose (purpose : string) : string :=
  if String.eqb (lower purpose) "buy a product" then
    "What category of insurance would you like? Options: Life, Health, Motor, Personal Accident."
  else if String.eqb (lower purpose) "view your policies" then
    "Please provide your policy number to view details."
  else if String.eqb (lower purpose) "make a claim" then
    "To make a claim, please upload the necessary documents."
  else if String.eqb (lower purpose) "make a complaint" then
    "Please describe your issue so we can assist you promptly."
  else "I'm here to help with your insurance needs!".

(** [ORDER BY last_active ASC LIMIT 1]: among equal timestamps the row
    met first is kept. *)
Fixpoint least_recently_active (l : list Agent) : option Agent :=
  match l with
  | [] => None
  | a :: r =>
      match least_recently_active r with
      | None => Some a
      | Some b =>
          if Z.leb (agent_last_active a) (agent_last_active b)
          then Some a else Some b
      end
  end.

Definition is_available (a : Agent) : bool :=
  String.eqb (agent_status a) "available".

Definition select_available_agent (l : list Agent) : option AgentInfo :=
  match least_recently_active (filter is_available l) with
  | Some a =>
      Some {| ai_id := agent_id a; ai_name := agent_name a;
              ai_email := agent_email a; ai_expertise := agent_expertise a |}
  | None => None
  end.

Definition get_available_agent (env : Env) : M (option AgentInfo) :=
  emit EGetAvailableAgent ;;
  sqlite env SelectAgent
    (s <- get ;; ret (select_available_agent (agents s))).

(** [UPDATE agents SET status = ?, last_active = ? WHERE id = ?] *)
Definition update_agents (id : Z) (status : string) (t : Z) (l : list Agent)
  : list Agent :=
  map (fun a =>
         if Z.eqb (agent_id a) id then
           {| agent_id := agent_id a; agent_name := agent_name a;
              agent_email := agent_email a; agent_expertise := agent_expertise a;
              agent_status := status; agent_last_active := t |}
         else a) l.

Definition update_agent_status (env : Env) (id : Z) (status : string) : M unit :=
  emit (EUpdateAgentStatus id status) ;;
  sqlite env UpdateAgent
    (modify (fun s => set_agents (update_agents id status (now env) (agents s)) s)).

Definition customer_dict (c : Customer) : dict :=
  [ ("id", PInt (cust_id c));
    ("name", PStr (cust_name c));
    ("phone", PStr (cust_phone c));
    ("email", PStr (cust_email c));
    ("dob", PStr (cust_dob c));
    ("company_preference", PStr (cust_company_preference c));
    ("created_at", PStr (cust_created_at c));
    ("last_interaction", PNone) ].

(** [SELECT ... FROM customers WHERE phone = ?], first row. *)
Definition select_customer (phone_number : string) (l : list Customer)
  : pyval :=
  match find (fun c => String.eqb (cust_phone c) phone_number) l with
  | Some c => PDict (customer_dict c)
  | None => PDict []
  end.

Definition get_customer_info (env : Env) (phone_number : string) : M pyval :=
  emit (EGetCustomerInfo phone_number) ;;
  sqlite env SelectCustomer
    (s <- get ;; ret (select_customer phone_number (customers s))).

Definition save_chat_context (env : Env) (customer_id : pyval) (ctx : string)
  : M unit :=
  emit (ESaveChatContext customer_id ctx) ;;
  sqlite env InsertChatSession
    (modify (fun s =>
       set_chat_sessions
         (chat_sessions s ++
            [{| cs_customer_id := customer_id; cs_context := ctx;
                cs_start_time := now env |}])%list s)).

(** [ConversationManager.get_context] *)
Definition get_context : M string :=
  s <- get ;; ret (json_dumps (PDict (context s))).

(** [self.conversation.context["customer"]["id"]] *)
Definition customer_id_of (ctx : dict) : M pyval :=
  match dict_get "customer" ctx with
  | None => raise "'customer'"
  | Some (PDict c) =>
      match dict_get "id" c with
      | Some v => ret v
      | None => raise "'id'"
      end
  | Some _ => raise "object is not subscriptable"
  end.

Definition fixed_intents : list string :=
  ["buy a product"; "view your policies"; "make a claim"; "make a complaint"].

(** [user_input.lower() in [...]] *)
Definition is_fixed_intent (user_input : string) : bool :=
  existsb (String.eqb (lower user_input)) fixed_intents.

Definition connecting (a : AgentInfo) : string :=
  "Connecting you with " ++ ai_name a ++ ", who specializes in " ++
  ai_expertise a ++ ". Contact: " ++ ai_email a ++ ".".

Definition no_agents : string :=
  "No agents available. Please try later or let me assist further.".
Definition menu : string :=
  "Thank you for agreeing to our privacy policy. How can I assist you today? Options: Buy a Product, View Your Policies, Make a Claim, Make a Complaint.".
Definition agree_or_exit : string :=
  "You need to agree to our privacy policy to proceed. Type 'Agree' to continue or 'Exit' to quit.".
Definition please_confirm : string :=
  "Hello! Please confirm you agree to our privacy policy to proceed. Type 'Agree' or 'Disagree'.".
Definition consent_refused : string :=
  "You need to agree to our privacy policy to proceed. Type 'Agree' to continue.".
Definition details_not_found : string :=
  "Sorry, we couldn't find your details. Please contact support for assistance.".

(** Lines 121 to 130. *)
Definition agent_request (env : Env) : M string :=
  agent_info <- get_available_agent env ;;
  match agent_info with
  | Some a =>
      update_agent_status env (ai_id a) "busy" ;;
      log_audit "Agent Escalation"
        ("Customer connected to agent " ++ ai_name a ++ ".") ;;
      ret (connecting a)
  | None => ret no_agents
  end.

(** Lines 133 to 141. *)
Definition privacy_confirmation (user_input : string) : M string :=
  if String.eqb (lower (strip user_input)) "agree" then
    modify (fun s => set_context (dict_set "privacy" (PBool true) (context s)) s) ;;
    ret menu
  else if String.eqb (lower (strip user_input)) "disagree" then
    ret agree_or_exit
  else ret please_confirm.

(** [not self.conversation.context.get("privacy", False)] *)
Definition privacy_refused (ctx : dict) : bool :=
  negb (truthy (match dict_get "privacy" ctx with
                | Some v => v
                | None => PBool false
                end)).

(** Lines 154 to 158. *)
Definition respond (env : Env) (user_input : string) : M string :=
  if is_fixed_intent user_input then
    emit (EHandlePurpose user_input) ;;
    ret (handle_purpose user_input)
  else
    s <- get ;;
    AIHandler.generate_response json_dumps env user_input (context s).

(** Lines 160 to 165. *)
Definition record_turn (env : Env) (user_input response : string) : M string :=
  add_message "user" user_input ;;
  add_message "assistant" response ;;
  s <- get ;;
  customer_id <- customer_id_of (context s) ;;
  ctx <- get_context ;;
  save_chat_context env customer_id ctx ;;
  ret response.

(** Lines 154 to 165. *)
Definition answer (env : Env) (user_input : string) : M string :=
  response <- respond env user_input ;;
  record_turn env user_input response.

(** Lines 146 to 165. *)
Definition identify_then_answer (env : Env) (user_input phone_number : string)
  : M string :=
  s <- get ;;
  if negb (dict_mem "customer" (context s)) then
    customer_info <- get_customer_info env phone_number ;;
    if truthy customer_info then
      modify (fun s => set_context (dict_set "customer" customer_info (context s)) s) ;;
      answer env user_input
    else ret details_not_found
  else answer env user_input.

Definition process_message (env : Env) (user_input phone_number : string)
  : M string :=
  if contains "agent" (lower user_input) then agent_request env
  else
    s <- get ;;
    if negb (dict_mem "privacy" (context s)) then
      privacy_confirmation user_input
    else if privacy_refused (context s) then
      emit EConsentDenied ;;
      ret consent_refused
    else identify_then_answer env user_input phone_number.

End WithJson.
End PrinceChatbot.

(** ** Sessions *)

Record Turn := {
  turn_env : Env;
  turn_input : string;
  turn_phone : string
}.

(** A chatbot just built by [PrinceChatbot(db_path)]: empty transcript and
    context, over whatever the database and the audit file hold. *)
Definition new_session (ag : list Agent) (cu : list Customer)
  (cs : list ChatSession) (au : list string) : State :=
  {| chat_history := []; context := []; agents := ag; customers := cu;
     chat_sessions := cs; audit_trail := au |}.

Section Sessions.

Variable json_dumps : pyval -> string.

Definition turn (t : Turn) : M string :=
  PrinceChatbot.process_message json_dumps
    (turn_env t) (turn_input t) (turn_phone t).

(** The state after a sequence of turns; a turn that raises leaves the
    session as it was when the exception left [process_message]. *)
Fixpoint session (ts : list Turn) (s : State) : State :=
  match ts with
  | [] => s
  | t :: r => session r (post (turn t s))
  end.

(** The calls of a sequence of turns, turn by turn. *)
Fixpoint session_calls (ts : list Turn) (s : State) : list (list Event) :=
  match ts with
  | [] => []
  | t :: r => calls (turn t s) :: session_calls r (post (turn t s))
  end.

Inductive reachable : State -> Prop :=
| reachable_new ag cu cs au : reachable (new_session ag cu cs au)
| reachable_turn s t : reachable s -> reachable (post (turn t s)).

End Sessions.

(** ** A concrete database and concrete collaborators *)

Module Demo.

(** A stand-in for [json.dumps]: the keys of a dictionary. *)
Definition dumps (v : pyval) : string :=
  match v with
  | PDict d => "{" ++ join "," (map fst d) ++ "}"
  | PStr s => s
  | _ => "null"
  end.

Definition agent_a : Agent :=
  {| agent_id := 1; agent_name := "A"; agent_email := "a@x.com";
     agent_expertise := "Motor"; agent_status := "available";
     agent_last_active := 10 |}.

Definition ada : Customer :=
  {| cust_id := 7; cust_name := "Ada"; cust_phone := "0801";
     cust_email := "ada@x.com"; cust_dob := "1990-01-01";
     cust_company_preference := "Life"; cust_created_at := "2024-01-01" |}.

Definition doc_d : Document := {| page_content := "D" |}.

(** Every collaborator answers. *)
Definition env_ok : Env :=
  {| now := 100;
     SERP_API_KEY := Some "k";
     serper := fun _ _ =>
       Ok (JObj [("organic",
                  JList [JObj [("title", JStr "T"); ("position", JInt 1);
                               ("snippet", JStr "W")]])]);
     faiss := fun _ => Ok [doc_d];
     chat_completion := fun _ _ => Ok "R";
     sqlite_error := fun _ => None |}.

(** The search request fails, the index returns one document. *)
Definition env_web_down : Env :=
  {| now := 100;
     SERP_API_KEY := Some "k";
     serper := fun _ _ => Raise "timed out";
     faiss := fun _ => Ok [doc_d];
     chat_completion := fun _ _ => Ok "R";
     sqlite_error := fun _ => None |}.

(** The index fails, the search answers. *)
Definition env_kb_down : Env :=
  {| now := 100;
     SERP_API_KEY := Some "k";
     serper := fun _ _ => Ok (JObj [("organic", JList [JObj [("snippet", JStr "W")]])]);
     faiss := fun _ => Raise "no index";
     chat_completion := fun _ _ => Ok "R";
     sqlite_error := fun _ => None |}.

(** The insertion into [chat_sessions] fails. *)
Definition env_insert_fails : Env :=
  {| now := 100;
     SERP_API_KEY := Some "k";
     serper := fun _ _ => Ok (JObj [("organic", JList [JObj [("snippet", JStr "W")]])]);
     faiss := fun _ => Ok [doc_d];
     chat_completion := fun _ _ => Ok "R";
     sqlite_error := fun stmt =>
       match stmt with
       | InsertChatSession => Some "database is locked"
       | _ => None
       end |}.

Definition fresh : State := new_session [agent_a] [ada] [] [].

Definition says (env : Env) (input : string) : Turn :=
  {| turn_env := env; turn_input := input; turn_phone := "0801" |}.

Definition stranger_says (env : Env) (input : string) : Turn :=
  {| turn_env := env; turn_input := input; turn_phone := "0000" |}.

(** Ada has agreed and has been identified by a first question. *)
Definition identified : State :=
  session dumps [says env_ok "agree"; says env_ok "hello"] fresh.

End Demo.

(** No key for the search. *)
Definition env_no_key : Env :=
  {| now := 100;
     SERP_API_KEY := None;
     serper := fun _ _ => Ok (JObj []);
     faiss := fun _ => Ok [Demo.doc_d];
     chat_completion := fun _ _ => Ok "R";
     sqlite_error := fun _ => None |}.



(** * Properties *)

(** ** Dictionaries *)

Lemma dict_get_set_same k v d : dict_get k (dict_set k v d) = Some v.
Proof.
  induction d as [|[k' v'] r IH]; simpl.
  - now rewrite String.eqb_refl.
  - destruct (String.eqb k k') eqn:E; simpl; rewrite E; auto.
Qed.

Lemma dict_get_set_other k k' v d :
  k <> k' -> dict_get k (dict_set k' v d) = dict_get k d.
Proof.
  intros N. induction d as [|[k0 v0] r IH]; simpl.
  - destruct (String.eqb k k') eqn:E; auto.
    apply String.eqb_eq in E. contradiction.
  - destruct (String.eqb k' k0) eqn:E; simpl.
    + apply String.eqb_eq in E. subst k0.
      destruct (String.eqb k k') eqn:E'; auto.
      apply String.eqb_eq in E'. contradiction.
    + now rewrite IH.
Qed.

Lemma dict_mem_set_same k v d : dict_mem k (dict_set k v d) = true.
Proof. unfold dict_mem. now rewrite dict_get_set_same. Qed.

Lemma dict_mem_set_other k k' v d :
  k <> k' -> dict_mem k (dict_set k' v d) = dict_mem k d.
Proof. intros N. unfold dict_mem. now rewrite dict_get_set_other. Qed.

(** ** The state *)

Definition add_audit (lines : list string) (s : State) : State :=
  set_audit_trail (audit_trail s ++ lines)%list s.

Lemma add_audit_nil s : add_audit [] s = s.
Proof. destruct s; unfold add_audit, set_audit_trail; simpl. now rewrite app_nil_r. Qed.

Lemma add_audit_app l1 l2 s : add_audit l2 (add_audit l1 s) = add_audit (l1 ++ l2)%list s.
Proof. unfold add_audit, set_audit_trail; simpl. now rewrite app_assoc. Qed.

Section Equations.

Variable json_dumps : pyval -> string.

Import AIHandler PrinceChatbot.

(** *** Retrieval *)

(** The outcome of the [try] block of [google_search]. *)
Definition web_outcome (env : Env) (key query : string) : Result json :=
  match serper env key query with
  | Ok response_data => json_get "organic" (JList []) response_data
  | Raise e => Raise e
  end.

(** What [google_search] returns once the request has been sent. *)
Definition web_results (env : Env) (key query : string) : json :=
  match web_outcome env key query with
  | Ok organic => organic
  | Raise _ => JList []
  end.

Definition web_audit (env : Env) (key query : string) : list string :=
  match web_outcome env key query with
  | Ok _ => []
  | Raise e => ["Error: Google search failed: " ++ e]
  end.

Definition kb_docs (env : Env) (query : string) : list Document :=
  match faiss env query with
  | Ok docs => docs
  | Raise _ => []
  end.

Definition kb_audit (env : Env) (query : string) : list string :=
  match faiss env query with
  | Ok _ => []
  | Raise e => ["Error: Knowledge base retrieval failed: " ++ e]
  end.

Lemma google_search_eq env key query s :
  SERP_API_KEY env = Some key ->
  google_search env query s =
    (Ok (web_results env key query), add_audit (web_audit env key query) s,
     [EGoogleSearch query]).
Proof.
  intros K. unfold google_search, web_results, web_audit, web_outcome, bind, emit.
  rewrite K. unfold try_except, bind, lift, ret, log_audit, modify.
  destruct (serper env key query) as [response_data|e]; simpl;
    [destruct (json_get "organic" (JList []) response_data); simpl|];
    rewrite ?add_audit_nil; reflexivity.
Qed.

Lemma google_search_no_key env query s :
  SERP_API_KEY env = None ->
  google_search env query s = (Raise "'SERP_API_KEY'", s, [EGoogleSearch query]).
Proof.
  intros K. unfold google_search, bind, emit. rewrite K. reflexivity.
Qed.

Lemma retrieve_from_knowledge_base_eq env query s :
  retrieve_from_knowledge_base env query s =
    (Ok (kb_docs env query), add_audit (kb_audit env query) s,
     [ERetrieveKB query]).
Proof.
  unfold retrieve_from_knowledge_base, kb_docs, kb_audit, bind, emit.
  unfold try_except, bind, lift, ret, log_audit, modify.
  destruct (faiss env query) as [docs|e]; simpl;
    rewrite ?add_audit_nil; reflexivity.
Qed.

(** The exception of line 79, if it raises. *)
Definition line79 (env : Env) (key user_input : string) : option string :=
  match read_results (web_results env key (refined_query user_input)) with
  | Ok _ => None
  | Raise e => Some e
  end.

(** The entries line 79 reads. *)
Definition web_entries (env : Env) (key user_input : string) : list SearchResult :=
  match read_results (web_results env key (refined_query user_input)) with
  | Ok results => results
  | Raise _ => []
  end.

(** The system prompt of a turn. *)
Definition prompt_of (env : Env) (key user_input : string) (ctx : dict) : string :=
  build_prompt (json_dumps (customer_entry ctx))
    (search_context
       (web_context (web_entries env key user_input))
       (kb_context (kb_docs env (refined_query user_input))))
    user_input.

Definition retrieval_audit (env : Env) (key user_input : string) : list string :=
  (web_audit env key (refined_query user_input) ++
   kb_audit env (refined_query user_input))%list.

(** The calls of a turn that raises at line 79. *)
Definition search_calls (user_input : string) : list Event :=
  [EGenerateResponse user_input; EGoogleSearch (refined_query user_input)].

Lemma generate_response_eq env key user_input ctx s :
  SERP_API_KEY env = Some key ->
  generate_response json_dumps env user_input ctx s =
    match line79 env key user_input with
    | Some e =>
        (Raise e, add_audit (web_audit env key (refined_query user_input)) s,
         search_calls user_input)
    | None =>
        (chat_completion env (prompt_of env key user_input ctx) user_input,
         add_audit (retrieval_audit env key user_input) s,
         [EGenerateResponse user_input;
          EGoogleSearch (refined_query user_input);
          ERetrieveKB (refined_query user_input);
          EChatCompletion (prompt_of env key user_input ctx) user_input])
    end.
Proof.
  intros K. unfold generate_response, bind at 1. unfold emit at 1.
  unfold bind at 1. rewrite (google_search_eq _ _ _ _ K).
  unfold line79, prompt_of, web_entries, retrieval_audit, search_calls.
  unfold bind at 1. unfold lift at 1.
  destruct (read_results (web_results env key (refined_query user_input)))
    as [results|e]; [|reflexivity].
  unfold bind at 1. rewrite retrieve_from_knowledge_base_eq.
  unfold bind, emit, lift. rewrite add_audit_app.
  destruct (chat_completion _ _ _); reflexivity.
Qed.

Lemma generate_response_no_key env user_input ctx s :
  SERP_API_KEY env = None ->
  generate_response json_dumps env user_input ctx s =
    (Raise "'SERP_API_KEY'", s,
     [EGenerateResponse user_input; EGoogleSearch (refined_query user_input)]).
Proof.
  intros K. unfold generate_response, bind at 1. unfold emit at 1.
  unfold bind at 1. rewrite (google_search_no_key _ _ _ K). reflexivity.
Qed.

(** *** Recording a turn *)

(** The transcript after a turn. *)
Definition with_turn (user_input response : string) (s : State) : State :=
  set_chat_history
    (chat_history s ++ [("user", user_input); ("assistant", response)])%list s.

(** The value of [context["customer"]["id"]], or the exception. *)
Definition customer_id_value (ctx : dict) : Result pyval :=
  match dict_get "customer" ctx with
  | None => Raise "'customer'"
  | Some (PDict c) =>
      match dict_get "id" c with
      | Some v => Ok v
      | None => Raise "'id'"
      end
  | Some _ => Raise "object is not subscriptable"
  end.

Definition snapshot (env : Env) (customer_id : pyval) (s : State) : ChatSession :=
  {| cs_customer_id := customer_id;
     cs_context := json_dumps (PDict (context s));
     cs_start_time := now env |}.

Definition with_snapshot (row : ChatSession) (s : State) : State :=
  set_chat_sessions (chat_sessions s ++ [row])%list s.

Lemma record_turn_eq env user_input response s :
  record_turn json_dumps env user_input response s =
    match customer_id_value (context s) with
    | Raise e => (Raise e, with_turn user_input response s, [])
    | Ok v =>
        match sqlite_error env InsertChatSession with
        | Some e =>
            (Raise e, with_turn user_input response s,
             [ESaveChatContext v (json_dumps (PDict (context s)))])
        | None =>
            (Ok response,
             with_snapshot (snapshot env v s) (with_turn user_input response s),
             [ESaveChatContext v (json_dumps (PDict (context s)))])
        end
    end.
Proof.
  unfold record_turn, add_message, customer_id_of, customer_id_value,
    get_context, save_chat_context, sqlite, with_turn, with_snapshot, snapshot.
  unfold bind, modify, get, emit, ret, raise. simpl.
  rewrite <- app_assoc. simpl.
  destruct (dict_get "customer" (context s)) as [[| | | |c]|]; try reflexivity.
  destruct (dict_get "id" c); try reflexivity.
  destruct (sqlite_error env InsertChatSession); reflexivity.
Qed.

(** A result with more calls in front. *)
Definition after {A} (t : list Event) (x : Result A * State * list Event)
  : Result A * State * list Event :=
  (outcome x, post x, (t ++ calls x)%list).

Lemma bind_eq {A B} (m : M A) (k : A -> M B) s :
  bind m k s =
    match outcome (m s) with
    | Ok a => after (calls (m s)) (k a (post (m s)))
    | Raise e => (Raise e, post (m s), calls (m s))
    end.
Proof.
  unfold bind, after, outcome, post, calls.
  destruct (m s) as [[[a|e] s1] t1]; simpl; auto.
  destruct (k a s1) as [[r s2] t2]; reflexivity.
Qed.

Lemma respond_eq env user_input s :
  respond json_dumps env user_input s =
    if is_fixed_intent user_input
    then (Ok (handle_purpose user_input), s, [EHandlePurpose user_input])
    else generate_response json_dumps env user_input (context s) s.
Proof.
  unfold respond. destruct (is_fixed_intent user_input).
  - reflexivity.
  - unfold bind, get.
    destruct (generate_response _ _ _ _ s) as [[[r|e] s1] t1]; reflexivity.
Qed.

Definition generative_calls (env : Env) (key user_input : string) (ctx : dict)
  : list Event :=
  [EGenerateResponse user_input;
   EGoogleSearch (refined_query user_input);
   ERetrieveKB (refined_query user_input);
   EChatCompletion (prompt_of env key user_input ctx) user_input].

Lemma answer_intent env user_input s :
  is_fixed_intent user_input = true ->
  answer json_dumps env user_input s =
    after [EHandlePurpose user_input]
      (record_turn json_dumps env user_input (handle_purpose user_input) s).
Proof.
  intros I. unfold answer. rewrite bind_eq, respond_eq, I. reflexivity.
Qed.

Lemma answer_line79 env key user_input e s :
  is_fixed_intent user_input = false ->
  SERP_API_KEY env = Some key ->
  line79 env key user_input = Some e ->
  answer json_dumps env user_input s =
    (Raise e, add_audit (web_audit env key (refined_query user_input)) s,
     search_calls user_input).
Proof.
  intros I K L. unfold answer.
  now rewrite bind_eq, respond_eq, I, (generate_response_eq _ _ _ _ _ K), L.
Qed.

Lemma answer_generative env key user_input s :
  is_fixed_intent user_input = false ->
  SERP_API_KEY env = Some key ->
  line79 env key user_input = None ->
  answer json_dumps env user_input s =
    match chat_completion env (prompt_of env key user_input (context s)) user_input with
    | Ok response =>
        after (generative_calls env key user_input (context s))
          (record_turn json_dumps env user_input response
             (add_audit (retrieval_audit env key user_input) s))
    | Raise e =>
        (Raise e, add_audit (retrieval_audit env key user_input) s,
         generative_calls env key user_input (context s))
    end.
Proof.
  intros I K L. unfold answer.
  rewrite bind_eq, respond_eq, I, (generate_response_eq _ _ _ _ _ K), L.
  unfold outcome, post, calls; simpl.
  destruct (chat_completion _ _ _); reflexivity.
Qed.

Lemma answer_no_key env user_input s :
  is_fixed_intent user_input = false ->
  SERP_API_KEY env = None ->
  answer json_dumps env user_input s =
    (Raise "'SERP_API_KEY'", s,
     [EGenerateResponse user_input; EGoogleSearch (refined_query user_input)]).
Proof.
  intros I K. unfold answer.
  rewrite bind_eq, respond_eq, I, (generate_response_no_key _ _ _ _ K).
  reflexivity.
Qed.

(** *** The gates *)

Definition escalation_line (a : AgentInfo) : string :=
  "Agent Escalation: Customer connected to agent " ++ ai_name a ++ ".".

(** The store and the audit file after an escalation to [a]. *)
Definition escalated (env : Env) (a : AgentInfo) (s : State) : State :=
  add_audit [escalation_line a]
    (set_agents (update_agents (ai_id a) "busy" (now env) (agents s)) s).

Lemma agent_request_eq env s :
  agent_request env s =
    match sqlite_error env SelectAgent with
    | Some e => (Raise e, s, [EGetAvailableAgent])
    | None =>
        match select_available_agent (agents s) with
        | None => (Ok no_agents, s, [EGetAvailableAgent])
        | Some a =>
            match sqlite_error env UpdateAgent with
            | Some e =>
                (Raise e, s,
                 [EGetAvailableAgent; EUpdateAgentStatus (ai_id a) "busy"])
            | None =>
                (Ok (connecting a), escalated env a s,
                 [EGetAvailableAgent; EUpdateAgentStatus (ai_id a) "busy"])
            end
        end
    end.
Proof.
  unfold agent_request, get_available_agent, update_agent_status, sqlite,
    log_audit, escalated, escalation_line, add_audit.
  unfold bind, emit, get, ret, raise, modify.
  destruct (sqlite_error env SelectAgent); [reflexivity|].
  destruct (select_available_agent (agents s)) as [a|]; [|reflexivity].
  destruct (sqlite_error env UpdateAgent); reflexivity.
Qed.

Definition consented (s : State) : State :=
  set_context (dict_set "privacy" (PBool true) (context s)) s.

Lemma privacy_confirmation_eq user_input s :
  privacy_confirmation user_input s =
    if String.eqb (lower (strip user_input)) "agree" then (Ok menu, consented s, [])
    else if String.eqb (lower (strip user_input)) "disagree"
         then (Ok agree_or_exit, s, [])
         else (Ok please_confirm, s, []).
Proof.
  unfold privacy_confirmation.
  destruct (String.eqb (lower (strip user_input)) "agree"); [reflexivity|].
  destruct (String.eqb (lower (strip user_input)) "disagree"); reflexivity.
Qed.

Definition identified_as (c : Customer) (s : State) : State :=
  set_context (dict_set "customer" (PDict (customer_dict c)) (context s)) s.

Definition find_customer (phone_number : string) (s : State) : option Customer :=
  find (fun c => String.eqb (cust_phone c) phone_number) (customers s).

Lemma identify_then_answer_eq env user_input phone_number s :
  identify_then_answer json_dumps env user_input phone_number s =
    if dict_mem "customer" (context s) then answer json_dumps env user_input s
    else
      match sqlite_error env SelectCustomer with
      | Some e => (Raise e, s, [EGetCustomerInfo phone_number])
      | None =>
          match find_customer phone_number s with
          | None => (Ok details_not_found, s, [EGetCustomerInfo phone_number])
          | Some c =>
              after [EGetCustomerInfo phone_number]
                (answer json_dumps env user_input (identified_as c s))
          end
      end.
Proof.
  unfold identify_then_answer, find_customer, identified_as.
  rewrite bind_eq. unfold get at 1 2 3. unfold outcome, post, calls; simpl.
  destruct (dict_mem "customer" (context s)); simpl.
  - unfold after, outcome, post, calls.
    destruct (answer _ _ _ s) as [[r s1] t1]; reflexivity.
  - unfold get_customer_info, sqlite, select_customer.
    destruct (sqlite_error env SelectCustomer); [reflexivity|].
    unfold bind at 1 2 3, emit, get, ret, after; simpl.
    destruct (find _ (customers s)) as [c|]; simpl; [|reflexivity].
    unfold bind, modify, outcome, post, calls.
    destruct (answer _ _ _ _) as [[r s1] t1]; reflexivity.
Qed.

Lemma process_message_eq env user_input phone_number s :
  process_message json_dumps env user_input phone_number s =
    if contains "agent" (lower user_input) then agent_request env s
    else if negb (dict_mem "privacy" (context s))
         then privacy_confirmation user_input s
    else if privacy_refused (context s)
         then (Ok consent_refused, s, [EConsentDenied])
    else identify_then_answer json_dumps env user_input phone_number s.
Proof.
  unfold process_message.
  destruct (contains "agent" (lower user_input)); [reflexivity|].
  unfold bind, get.
  destruct (negb (dict_mem "privacy" (context s))).
  - destruct (privacy_confirmation user_input s) as [[r s1] t1]; reflexivity.
  - destruct (privacy_refused (context s)); [reflexivity|].
    destruct (identify_then_answer _ _ _ _ s) as [[r s1] t1]; reflexivity.
Qed.

End Equations.

(** ** What a turn leaves in the session context *)

Definition consent_recorded (s : State) : Prop :=
  dict_get "privacy" (context s) = Some (PBool true).

(** The context of a session: the privacy flag is absent or [True], the
    customer entry is absent or a row of [customers], and there is no
    customer entry without the flag. *)
Definition session_ok (s : State) : Prop :=
  (dict_get "privacy" (context s) = None \/ consent_recorded s) /\
  (dict_get "customer" (context s) = None \/
   exists c, dict_get "customer" (context s)
             = Some (PDict (PrinceChatbot.customer_dict c))) /\
  (dict_mem "customer" (context s) = true -> consent_recorded s).

(** The calls that are intent routing, retrieval or generation. *)
Definition routes_or_generates (e : Event) : bool :=
  match e with
  | EHandlePurpose _ | EGenerateResponse _ | EGoogleSearch _
  | ERetrieveKB _ | EChatCompletion _ _ => true
  | _ => false
  end.

Definition looks_up_customer (e : Event) : bool :=
  match e with EGetCustomerInfo _ => true | _ => false end.

Definition refuses_consent (e : Event) : bool :=
  match e with EConsentDenied => true | _ => false end.

Section Invariants.

Variable json_dumps : pyval -> string.

Import AIHandler PrinceChatbot.

Lemma record_turn_context env user_input response s :
  context (post (record_turn json_dumps env user_input response s)) = context s.
Proof.
  rewrite record_turn_eq.
  destruct (customer_id_value (context s)); [|reflexivity].
  destruct (sqlite_error env InsertChatSession); reflexivity.
Qed.

Lemma answer_context env user_input s :
  context (post (answer json_dumps env user_input s)) = context s.
Proof.
  destruct (is_fixed_intent user_input) eqn:I.
  - rewrite (answer_intent _ _ _ _ I). apply record_turn_context.
  - destruct (SERP_API_KEY env) as [key|] eqn:K.
    + destruct (line79 env key user_input) as [e79|] eqn:L79.
      { rewrite (answer_line79 _ _ _ _ _ _ I K L79). reflexivity. }
      rewrite (answer_generative _ _ _ _ _ I K L79).
      destruct (chat_completion _ _ _); [|reflexivity].
      unfold after, post at 1; simpl. now rewrite record_turn_context.
    + now rewrite (answer_no_key _ _ _ _ I K).
Qed.

Lemma agent_request_context env s :
  context (post (agent_request env s)) = context s.
Proof.
  rewrite agent_request_eq.
  destruct (sqlite_error env SelectAgent); [reflexivity|].
  destruct (select_available_agent (agents s)); [|reflexivity].
  destruct (sqlite_error env UpdateAgent); reflexivity.
Qed.

(** The only writes to the context: the flag on "agree" while it is
    absent, the customer entry when the lookup finds a row. *)
Lemma turn_context env user_input phone_number s :
  let s' := post (process_message json_dumps env user_input phone_number s) in
  context s' = context s
  \/ (dict_mem "privacy" (context s) = false /\
      context s' = dict_set "privacy" (PBool true) (context s))
  \/ (dict_mem "privacy" (context s) = true /\
      privacy_refused (context s) = false /\
      dict_mem "customer" (context s) = false /\
      exists c, context s' = dict_set "customer" (PDict (customer_dict c)) (context s)).
Proof.
  simpl. rewrite process_message_eq.
  destruct (contains "agent" (lower user_input)).
  { left. apply agent_request_context. }
  destruct (dict_mem "privacy" (context s)) eqn:P; simpl.
  - destruct (privacy_refused (context s)) eqn:R; [now left|].
    rewrite identify_then_answer_eq.
    destruct (dict_mem "customer" (context s)) eqn:C.
    { left. apply answer_context. }
    destruct (sqlite_error env SelectCustomer); [now left|].
    destruct (find_customer phone_number s) as [c|]; [|now left].
    right; right. repeat split; auto. exists c.
    unfold after, post at 1; simpl. now rewrite answer_context.
  - rewrite privacy_confirmation_eq.
    destruct (String.eqb (lower (strip user_input)) "agree").
    + right; left. split; reflexivity.
    + left. destruct (String.eqb (lower (strip user_input)) "disagree"); reflexivity.
Qed.

Lemma privacy_not_refused ctx :
  dict_get "privacy" ctx = Some (PBool true) -> privacy_refused ctx = false.
Proof. intros H. unfold privacy_refused. now rewrite H. Qed.

Lemma session_ok_new ag cu cs au : session_ok (new_session ag cu cs au).
Proof.
  unfold session_ok, consent_recorded; simpl. repeat split; auto.
  discriminate.
Qed.

Lemma session_ok_turn t s :
  session_ok s -> session_ok (post (turn json_dumps t s)).
Proof.
  intros (P & C & PC). unfold turn.
  destruct (turn_context (turn_env t) (turn_input t) (turn_phone t) s)
    as [E | [[Pm E] | (Pm & R & Cm & c & E)]];
    unfold session_ok, consent_recorded in *; rewrite E.
  - auto.
  - assert (NC : dict_mem "customer" (context s) = false).
    { destruct (dict_mem "customer" (context s)) eqn:Cm; auto.
      specialize (PC eq_refl). unfold dict_mem in Pm. now rewrite PC in Pm. }
    rewrite dict_get_set_same, dict_mem_set_other by discriminate.
    rewrite dict_get_set_other by discriminate.
    repeat split; auto; rewrite NC; discriminate.
  - rewrite dict_get_set_same, dict_get_set_other by discriminate.
    assert (Pt : dict_get "privacy" (context s) = Some (PBool true)).
    { destruct P as [P|P]; auto. unfold dict_mem in Pm. now rewrite P in Pm. }
    repeat split; eauto.
Qed.

Lemma reachable_session_ok s : reachable json_dumps s -> session_ok s.
Proof.
  induction 1 as [ag cu cs au|s t _ IH].
  - apply session_ok_new.
  - now apply session_ok_turn.
Qed.

Lemma reachable_session ts s :
  reachable json_dumps s -> reachable json_dumps (session json_dumps ts s).
Proof.
  revert s. induction ts as [|t r IH]; intros s R; simpl; auto.
  apply IH. now constructor.
Qed.

End Invariants.

(** ** Which turns reach lines 154 to 165 *)

(** Whether a turn answers ([Some], with the state in which it does), or
    stops at the escalation, at the consent gate or at the identity gate. *)
Definition answering_state (env : Env) (user_input phone_number : string)
  (s : State) : option State :=
  if contains "agent" (lower user_input) then None
  else if negb (dict_mem "privacy" (context s)) then None
  else if PrinceChatbot.privacy_refused (context s) then None
  else if dict_mem "customer" (context s) then Some s
  else match sqlite_error env SelectCustomer with
       | Some _ => None
       | None =>
           match find_customer phone_number s with
           | Some c => Some (identified_as c s)
           | None => None
           end
       end.

Definition lookup_calls (phone_number : string) (s : State) : list Event :=
  if dict_mem "customer" (context s) then [] else [EGetCustomerInfo phone_number].

Definition answers (e : Event) : bool :=
  match e with
  | EHandlePurpose _ | EGenerateResponse _ => true
  | _ => false
  end.

Lemma after_nil {A} (x : Result A * State * list Event) : after [] x = x.
Proof. now destruct x as [[r s] t]. Qed.

Section Gates.

Variable json_dumps : pyval -> string.

Import AIHandler PrinceChatbot.

Lemma turn_answers env user_input phone_number s s1 :
  answering_state env user_input phone_number s = Some s1 ->
  process_message json_dumps env user_input phone_number s =
    after (lookup_calls phone_number s) (answer json_dumps env user_input s1).
Proof.
  unfold answering_state, lookup_calls. rewrite process_message_eq.
  destruct (contains "agent" (lower user_input)); [discriminate|].
  destruct (negb (dict_mem "privacy" (context s))); [discriminate|].
  destruct (privacy_refused (context s)); [discriminate|].
  rewrite identify_then_answer_eq.
  destruct (dict_mem "customer" (context s)).
  { intros [= <-]. now rewrite after_nil. }
  destruct (sqlite_error env SelectCustomer); [discriminate|].
  destruct (find_customer phone_number s); [|discriminate].
  now intros [= <-].
Qed.

(** A turn that stops before line 154: its result in each case. *)
Lemma turn_stops env user_input phone_number s :
  answering_state env user_input phone_number s = None ->
  let x := process_message json_dumps env user_input phone_number s in
  existsb routes_or_generates (calls x) = false /\
  chat_sessions (post x) = chat_sessions s /\
  chat_history (post x) = chat_history s.
Proof.
  unfold answering_state. simpl. rewrite process_message_eq.
  destruct (contains "agent" (lower user_input)).
  { intros _. rewrite agent_request_eq.
    destruct (sqlite_error env SelectAgent); [now repeat split|].
    destruct (select_available_agent (agents s)); [|now repeat split].
    destruct (sqlite_error env UpdateAgent); now repeat split. }
  destruct (negb (dict_mem "privacy" (context s))).
  { intros _. rewrite privacy_confirmation_eq.
    destruct (String.eqb (lower (strip user_input)) "agree"); [now repeat split|].
    destruct (String.eqb (lower (strip user_input)) "disagree"); now repeat split. }
  destruct (privacy_refused (context s)); [now repeat split|].
  rewrite identify_then_answer_eq.
  destruct (dict_mem "customer" (context s)); [discriminate|].
  destruct (sqlite_error env SelectCustomer); [now repeat split|].
  destruct (find_customer phone_number s); [discriminate|now repeat split].
Qed.

Lemma answering_state_gates env user_input phone_number s s1 :
  answering_state env user_input phone_number s = Some s1 ->
  contains "agent" (lower user_input) = false /\
  dict_mem "privacy" (context s) = true /\
  privacy_refused (context s) = false /\
  dict_mem "customer" (context s1) = true /\
  dict_get "privacy" (context s1) = dict_get "privacy" (context s) /\
  chat_sessions s1 = chat_sessions s /\
  chat_history s1 = chat_history s /\
  audit_trail s1 = audit_trail s.
Proof.
  unfold answering_state.
  destruct (contains "agent" (lower user_input)); [discriminate|].
  destruct (dict_mem "privacy" (context s)); [simpl|discriminate].
  destruct (privacy_refused (context s)); [discriminate|].
  destruct (dict_mem "customer" (context s)) eqn:C.
  { intros [= <-]. now repeat split. }
  destruct (sqlite_error env SelectCustomer); [discriminate|].
  destruct (find_customer phone_number s); [|discriminate].
  intros [= <-]. unfold identified_as; simpl.
  rewrite dict_mem_set_same, dict_get_set_other by discriminate.
  now repeat split.
Qed.

Lemma consent_of_gate s :
  session_ok s ->
  dict_mem "privacy" (context s) = true ->
  consent_recorded s.
Proof.
  intros ([P|P] & _) M; auto. unfold dict_mem in M. now rewrite P in M.
Qed.

(** The calls of lines 154 to 165 start with the routing or with the
    generation. *)
Lemma answer_calls env user_input s :
  exists e rest,
    calls (answer json_dumps env user_input s) = e :: rest /\ answers e = true.
Proof.
  destruct (is_fixed_intent user_input) eqn:I.
  - rewrite (answer_intent _ _ _ _ I). now eexists _, _.
  - destruct (SERP_API_KEY env) as [key|] eqn:K.
    + destruct (line79 env key user_input) as [e79|] eqn:L79.
      { rewrite (answer_line79 _ _ _ _ _ _ I K L79). now eexists _, _. }
      rewrite (answer_generative _ _ _ _ _ I K L79).
      destruct (chat_completion _ _ _); now eexists _, _.
    + rewrite (answer_no_key _ _ _ _ I K). now eexists _, _.
Qed.

End Gates.

(** ** The consent gate and the identity gate *)

Section Precedence.

Variable json_dumps : pyval -> string.

Import AIHandler PrinceChatbot.

Lemma record_turn_calls env user_input response s (f : Event -> bool) :
  (forall v c, f (ESaveChatContext v c) = false) ->
  existsb f (calls (record_turn json_dumps env user_input response s)) = false.
Proof.
  intros F. rewrite record_turn_eq.
  destruct (customer_id_value (context s)); [|reflexivity].
  destruct (sqlite_error env InsertChatSession); simpl; now rewrite F.
Qed.

(** Lines 154 to 165 look nobody up and refuse nothing. *)
Lemma answer_calls_none env user_input s (f : Event -> bool) :
  (forall e, f e = true -> looks_up_customer e || refuses_consent e = true) ->
  existsb f (calls (answer json_dumps env user_input s)) = false.
Proof.
  intros F.
  assert (N : forall e, looks_up_customer e || refuses_consent e = false -> f e = false).
  { intros e H. destruct (f e) eqn:E; auto. apply F in E. congruence. }
  destruct (is_fixed_intent user_input) eqn:I.
  - rewrite (answer_intent _ _ _ _ I). unfold after, calls at 1; simpl.
    rewrite N by reflexivity. apply record_turn_calls. intros; now apply N.
  - destruct (SERP_API_KEY env) as [key|] eqn:K.
    + destruct (line79 env key user_input) as [e79|] eqn:L79.
      { rewrite (answer_line79 _ _ _ _ _ _ I K L79). unfold calls; simpl. now rewrite !N by reflexivity. }
      rewrite (answer_generative _ _ _ _ _ I K L79).
      destruct (chat_completion _ _ _).
      * unfold after, calls at 1; simpl. rewrite !N by reflexivity.
        apply record_turn_calls. intros; now apply N.
      * unfold calls; simpl. now rewrite !N by reflexivity.
    + rewrite (answer_no_key _ _ _ _ I K). unfold calls; simpl.
      now rewrite !N by reflexivity.
Qed.

Lemma agent_request_calls env s (f : Event -> bool) :
  f EGetAvailableAgent = false ->
  (forall id st, f (EUpdateAgentStatus id st) = false) ->
  existsb f (calls (agent_request env s)) = false.
Proof.
  intros F1 F2. rewrite agent_request_eq.
  destruct (sqlite_error env SelectAgent); [simpl; now rewrite F1|].
  destruct (select_available_agent (agents s)); [|simpl; now rewrite F1].
  destruct (sqlite_error env UpdateAgent); simpl; now rewrite F1, F2.
Qed.

Lemma privacy_confirmation_calls user_input s :
  calls (privacy_confirmation user_input s) = [].
Proof.
  rewrite privacy_confirmation_eq.
  destruct (String.eqb (lower (strip user_input)) "agree"); [reflexivity|].
  destruct (String.eqb (lower (strip user_input)) "disagree"); reflexivity.
Qed.

(** The customer is looked up only behind the consent gate. *)
Lemma lookup_behind_consent_gate env user_input phone_number s :
  existsb looks_up_customer
    (calls (process_message json_dumps env user_input phone_number s)) = true ->
  dict_mem "privacy" (context s) = true.
Proof.
  rewrite process_message_eq.
  destruct (contains "agent" (lower user_input)).
  { now rewrite agent_request_calls. }
  destruct (dict_mem "privacy" (context s)); [reflexivity|simpl].
  now rewrite privacy_confirmation_calls.
Qed.

(** The refusal of line 144 needs a flag that is present and false. *)
Lemma refusal_needs_false_flag env user_input phone_number s :
  existsb refuses_consent
    (calls (process_message json_dumps env user_input phone_number s)) = true ->
  dict_mem "privacy" (context s) = true /\ privacy_refused (context s) = true.
Proof.
  rewrite process_message_eq.
  destruct (contains "agent" (lower user_input)).
  { now rewrite agent_request_calls. }
  destruct (dict_mem "privacy" (context s)); simpl.
  2:{ now rewrite privacy_confirmation_calls. }
  destruct (privacy_refused (context s)); [now split|].
  rewrite identify_then_answer_eq.
  destruct (dict_mem "customer" (context s)).
  { now rewrite answer_calls_none by (now intros [] E; simpl in * ). }
  destruct (sqlite_error env SelectCustomer); [discriminate|].
  destruct (find_customer phone_number s); [|discriminate].
  unfold after, calls at 1; simpl.
  now rewrite answer_calls_none by (now intros [] E; simpl in * ).
Qed.

End Precedence.

(** C1. In every session, on every turn: intent routing, retrieval or
    generation happens only if the context recorded [privacy == True] before
    the turn, and only with the customer resolved, either cached before the
    turn or looked up as the first call of the turn; the customer lookup
    itself happens only behind the consent gate. *)
Theorem C1_gates_precede_routing_and_generation
  (json_dumps : pyval -> string) (s : State) (t : Turn) :
  reachable json_dumps s ->
  let x := turn json_dumps t s in
  (existsb routes_or_generates (calls x) = true ->
   consent_recorded s /\
   dict_mem "customer" (context (post x)) = true /\
   (dict_mem "customer" (context s) = true \/
    exists rest, calls x = EGetCustomerInfo (turn_phone t) :: rest)) /\
  (existsb looks_up_customer (calls x) = true -> consent_recorded s).
Proof.
  intros R x. apply reachable_session_ok in R. split.
  - intros E. subst x. unfold turn in *.
    destruct (answering_state (turn_env t) (turn_input t) (turn_phone t) s)
      as [s1|] eqn:G.
    + destruct (answering_state_gates _ _ _ _ _ G) as (_ & P & _ & C & _).
      rewrite (turn_answers json_dumps _ _ _ _ _ G).
      split; [now apply consent_of_gate|]. split.
      * unfold after, post at 1; simpl. now rewrite answer_context.
      * unfold lookup_calls.
        destruct (dict_mem "customer" (context s)); [now left|right].
        now eexists.
    + destruct (turn_stops json_dumps _ _ _ _ G) as (N & _). congruence.
  - intros E. apply consent_of_gate; auto.
    now apply lookup_behind_consent_gate in E.
Qed.

Lemma C1_witness :
  reachable Demo.dumps Demo.identified /\ consent_recorded Demo.identified.
Proof.
  assert (R : reachable Demo.dumps Demo.identified).
  { apply reachable_session. apply reachable_new. }
  split; [exact R|].
  refine (proj1 (proj1 (C1_gates_precede_routing_and_generation Demo.dumps
                          Demo.identified (Demo.says Demo.env_ok "Make a Claim") R) _)).
  reflexivity.
Defined.

(** C10. In every reachable session the privacy flag, when present, is
    [True]; a "disagree" while the flag is absent stores nothing and
    re-prompts; and no turn takes the refusal of line 144. *)
Theorem C10_privacy_flag_true_when_present
  (json_dumps : pyval -> string) (s : State) :
  reachable json_dumps s ->
  (dict_mem "privacy" (context s) = true ->
   dict_get "privacy" (context s) = Some (PBool true)) /\
  (forall t,
     contains "agent" (lower (turn_input t)) = false ->
     dict_mem "privacy" (context s) = false ->
     lower (strip (turn_input t)) = "disagree" ->
     turn json_dumps t s = (Ok PrinceChatbot.agree_or_exit, s, [])) /\
  (forall t, existsb refuses_consent (calls (turn json_dumps t s)) = false).
Proof.
  intros R. apply reachable_session_ok in R. split; [|split].
  - now apply consent_of_gate.
  - intros t A P D. unfold turn. rewrite process_message_eq, A, P; simpl.
    rewrite privacy_confirmation_eq, D. reflexivity.
  - intros t.
    destruct (existsb refuses_consent (calls (turn json_dumps t s))) eqn:E; auto.
    apply refusal_needs_false_flag in E. destruct E as (P & F).
    apply (consent_of_gate _ R) in P.
    apply privacy_not_refused in P. congruence.
Qed.

Lemma C10_witness :
  reachable Demo.dumps Demo.identified /\
  existsb refuses_consent
    (calls (turn Demo.dumps (Demo.says Demo.env_ok "hello") Demo.identified)) = false.
Proof.
  assert (R : reachable Demo.dumps Demo.identified).
  { apply reachable_session. apply reachable_new. }
  split; [exact R|].
  apply (C10_privacy_flag_true_when_present Demo.dumps Demo.identified R).
Defined.

(** ** Context fusion *)

Lemma nonempty_append a b : nonempty (a ++ b) = nonempty a || nonempty b.
Proof. now destruct a. Qed.

Lemma nonempty_false s : nonempty s = false -> s = "".
Proof. now destruct s. Qed.

(** C2. Whatever the two sources return, the fused context is not the
    empty string, and when both text blocks are empty it is the sentence
    "No relevant information found.". *)
Theorem C2_fused_context_is_never_empty
  (web_results : list SearchResult) (kb_context_docs : list Document) :
  let fused :=
    AIHandler.search_context (AIHandler.web_context web_results)
      (AIHandler.kb_context kb_context_docs) in
  nonempty fused = true /\
  (AIHandler.web_context web_results = "" ->
   AIHandler.kb_context kb_context_docs = "" ->
   fused = "No relevant information found.").
Proof.
  simpl. unfold AIHandler.search_context. split.
  - destruct (nonempty (AIHandler.web_context web_results)
              || nonempty (AIHandler.kb_context kb_context_docs)) eqn:E.
    + rewrite nonempty_append. simpl. apply orb_true_r.
    + reflexivity.
  - intros -> ->. reflexivity.
Qed.

Lemma C2_witness :
  AIHandler.web_context [] = "" /\
  AIHandler.kb_context [] = "" /\
  AIHandler.search_context (AIHandler.web_context []) (AIHandler.kb_context [])
  = "No relevant information found.".
Proof.
  split; [reflexivity|]. split; [reflexivity|].
  apply (proj2 (C2_fused_context_is_never_empty [] [])); reflexivity.
Defined.

(** ** Failing retrieval *)

Section Replies.

Import AIHandler.

(** The entry is an object whose snippet is this string, the empty string
    standing for no snippet at all. *)
Definition has_snippet (entry : json) (snippet : string) : Prop :=
  exists o,
    entry = JObj o /\
    (jget "snippet" o = Some (JStr snippet) \/
     jget "snippet" o = None /\ snippet = "").

Lemma collect_snippets entries snippets :
  Forall2 has_snippet entries snippets ->
  collect (json_get "snippet" (JStr "")) entries = Ok (map JStr snippets).
Proof.
  induction 1 as [|entry snippet entries snippets (o & -> & H) _ IH]; simpl; auto.
  rewrite IH. destruct H as [->|(-> & ->)]; reflexivity.
Qed.

Lemma str_items_strings i snippets : str_items i (map JStr snippets) = Ok snippets.
Proof.
  revert i. induction snippets as [|t r IH]; intros i; simpl; auto.
  now rewrite IH.
Qed.

Lemma read_results_snippets entries snippets :
  Forall2 has_snippet entries snippets ->
  read_results (JList entries) = Ok (map (fun t => [("snippet", t)]) snippets).
Proof.
  intros H. unfold read_results. simpl.
  now rewrite (collect_snippets _ _ H), str_items_strings.
Qed.

Lemma web_context_snippets snippets :
  web_context (map (fun t => [("snippet", t)]) snippets) = String.concat nl snippets.
Proof.
  unfold web_context, join. rewrite map_map. simpl. now rewrite map_id.
Qed.

End Replies.

(** C5, as stated, fails: without SERP_API_KEY in the environment
    [google_search] raises the KeyError of line 52, which stands before its
    [try].  The exception is neither caught nor logged, and the turn of an
    identified customer ends by it, the knowledge base and the chat
    completion never called. *)
Lemma C5_counterexample :
  let input := "what is covered" in
  let q := AIHandler.refined_query input in
  let g := AIHandler.google_search env_no_key q Demo.identified in
  let x := PrinceChatbot.process_message Demo.dumps env_no_key input "0801"
             Demo.identified in
  SERP_API_KEY env_no_key = None /\
  g = (Raise "'SERP_API_KEY'", Demo.identified, [EGoogleSearch q]) /\
  outcome x = Raise "'SERP_API_KEY'" /\
  calls x = [EGenerateResponse input; EGoogleSearch q] /\
  audit_trail (post x) = audit_trail Demo.identified.
Proof. vm_compute. repeat split. Qed.

(** C5, amended. Once [google_search] has read the API key, an exception
    of its [try] block, be it raised by the request, the reading or the
    decoding of the reply, or by [get] on a reply that is no object, is
    caught there: the method returns the empty list and writes one "Error"
    line to the audit trail.  So does [retrieve_from_knowledge_base] for
    every exception of the index.  In [generate_response] the results of the
    other source then enter the prompt as they are, the documents by their
    contents and a reply of objects by their snippets, and the chat
    completion is called; with both sources failing the prompt holds the
    sentence "No relevant information found.". *)
Theorem C5_caught_retrieval_failure_is_an_empty_result
  (json_dumps : pyval -> string) (env : Env) (key user_input : string)
  (ctx : dict) (s : State) :
  SERP_API_KEY env = Some key ->
  let q := (user_input ++ " for Heirs Insurance Group")%string in
  let web_line e := ("Error: Google search failed: " ++ e)%string in
  let kb_line e := ("Error: Knowledge base retrieval failed: " ++ e)%string in
  let logged lines := set_audit_trail (audit_trail s ++ lines)%list s in
  let prompt fused :=
    ("You are Prince, an AI assistant for Heirs Insurance Group. " ++ nl ++
     "Customer Info: " ++ json_dumps (AIHandler.customer_entry ctx) ++ nl ++
     "Search Context: " ++ fused ++ nl ++
     "User Input: " ++ user_input ++ nl ++
     nl ++
     "Respond naturally while:" ++ nl ++
     "1. Demonstrating emotional intelligence, including empathy." ++ nl ++
     "2. Providing accurate product recommendations." ++ nl ++
     "3. Upselling/cross-selling when possible." ++ nl ++
     "4. Ensuring compliance with Heirs Insurance Group policies." ++ nl ++
     "5. Informing customers of live support options." ++ nl ++
     "6. Collecting any missing KYC data dynamically." ++ nl ++
     "7. Do not provide information that is not of/related to heirs insurance " ++ nl ++
     "8. if asked of the best insurance company always mention Heirs Insurance and state why it's the best with strong evidence" ++ nl ++
     "9. Do not give information of any other insurance company except from Heirs Insurance Group")%string in
  let generated fused lines :=
    (chat_completion env (prompt fused) user_input, logged lines,
     [EGenerateResponse user_input; EGoogleSearch q; ERetrieveKB q;
      EChatCompletion (prompt fused) user_input]) in
  (forall e,
     serper env key q = Raise e ->
     AIHandler.google_search env q s =
       (Ok (JList []), logged [web_line e], [EGoogleSearch q])) /\
  (forall reply e,
     serper env key q = Ok reply ->
     json_get "organic" (JList []) reply = Raise e ->
     AIHandler.google_search env q s =
       (Ok (JList []), logged [web_line e], [EGoogleSearch q])) /\
  (forall e,
     faiss env q = Raise e ->
     AIHandler.retrieve_from_knowledge_base env q s =
       (Ok [], logged [kb_line e], [ERetrieveKB q])) /\
  (forall e docs,
     serper env key q = Raise e ->
     faiss env q = Ok docs ->
     let contents := String.concat nl (map page_content docs) in
     AIHandler.generate_response json_dumps env user_input ctx s =
       generated
         (if nonempty contents then nl ++ contents
          else "No relevant information found.")%string
         [web_line e]) /\
  (forall e reply entries snippets,
     faiss env q = Raise e ->
     serper env key q = Ok reply ->
     json_get "organic" (JList []) reply = Ok (JList entries) ->
     Forall2 has_snippet entries snippets ->
     let texts := String.concat nl snippets in
     AIHandler.generate_response json_dumps env user_input ctx s =
       generated
         (if nonempty texts then texts ++ nl
          else "No relevant information found.")%string
         [kb_line e]) /\
  (forall e1 e2,
     serper env key q = Raise e1 ->
     faiss env q = Raise e2 ->
     AIHandler.generate_response json_dumps env user_input ctx s =
       generated "No relevant information found." [web_line e1; kb_line e2]).
Proof.
  intros K q web_line kb_line logged prompt generated.
  assert (Q : AIHandler.refined_query user_input = q) by reflexivity.
  assert (G : forall results docs lines,
             line79 env key user_input = None ->
             web_entries env key user_input = results ->
             kb_docs env q = docs ->
             retrieval_audit env key user_input = lines ->
             AIHandler.generate_response json_dumps env user_input ctx s =
               generated
                 (AIHandler.search_context (AIHandler.web_context results)
                    (AIHandler.kb_context docs)) lines).
  { intros results docs lines L R D A.
    rewrite (generate_response_eq _ _ _ _ _ _ K), L.
    unfold prompt_of. now rewrite Q, R, D, A. }
  assert (Wd : forall e, web_outcome env key q = Raise e ->
                 line79 env key user_input = None /\
                 web_entries env key user_input = [] /\
                 web_audit env key q = [web_line e]).
  { intros e W. unfold line79, web_entries, web_results, web_audit. rewrite ?Q.
    now rewrite W. }
  assert (Kd : forall e, faiss env q = Raise e ->
                 kb_docs env q = [] /\ kb_audit env q = [kb_line e]).
  { intros e F. unfold kb_docs, kb_audit. now rewrite F. }
  assert (Ko : forall docs, faiss env q = Ok docs ->
                 kb_docs env q = docs /\ kb_audit env q = []).
  { intros docs F. unfold kb_docs, kb_audit. now rewrite F. }
  split; [|split; [|split; [|split; [|split]]]].
  - intros e W. rewrite (google_search_eq _ _ _ _ K).
    unfold web_results, web_audit, web_outcome. now rewrite W.
  - intros reply e W J. rewrite (google_search_eq _ _ _ _ K).
    unfold web_results, web_audit, web_outcome. now rewrite W, J.
  - intros e F. rewrite retrieve_from_knowledge_base_eq.
    destruct (Kd e F) as (-> & ->). reflexivity.
  - intros e docs W F contents.
    assert (W' : web_outcome env key q = Raise e)
      by (unfold web_outcome; now rewrite W).
    destruct (Wd e W') as (L & R & A). destruct (Ko docs F) as (D & B).
    rewrite (G [] docs [web_line e] L R D).
    + reflexivity.
    + unfold retrieval_audit. rewrite ?Q. now rewrite A, B.
  - intros e reply entries snippets F W J H texts.
    assert (W' : web_outcome env key q = Ok (JList entries))
      by (unfold web_outcome; now rewrite W).
    destruct (Kd e F) as (D & B).
    pose proof (read_results_snippets _ _ H) as Rd.
    rewrite (G (map (fun t => [("snippet", t)]) snippets) [] [kb_line e]).
    + rewrite web_context_snippets. fold texts.
      unfold AIHandler.search_context, AIHandler.kb_context. simpl.
      rewrite orb_false_r. now destruct (nonempty texts).
    + unfold line79, web_results. rewrite ?Q. now rewrite W', Rd.
    + unfold web_entries, web_results. rewrite ?Q. now rewrite W', Rd.
    + exact D.
    + unfold retrieval_audit, web_audit. rewrite ?Q. now rewrite W', B.
  - intros e1 e2 W F.
    assert (W' : web_outcome env key q = Raise e1)
      by (unfold web_outcome; now rewrite W).
    destruct (Wd e1 W') as (L & R & A). destruct (Kd e2 F) as (D & B).
    rewrite (G [] [] [web_line e1; kb_line e2] L R D).
    + reflexivity.
    + unfold retrieval_audit. rewrite ?Q. now rewrite A, B.
Qed.

Lemma C5_witness :
  SERP_API_KEY Demo.env_web_down = Some "k" /\
  serper Demo.env_web_down "k" "hi for Heirs Insurance Group" = Raise "timed out" /\
  AIHandler.google_search Demo.env_web_down "hi for Heirs Insurance Group" Demo.fresh =
    (Ok (JList []),
     set_audit_trail ["Error: Google search failed: timed out"] Demo.fresh,
     [EGoogleSearch "hi for Heirs Insurance Group"]) /\
  faiss Demo.env_kb_down "hi for Heirs Insurance Group" = Raise "no index" /\
  AIHandler.retrieve_from_knowledge_base Demo.env_kb_down
    "hi for Heirs Insurance Group" Demo.fresh =
    (Ok [],
     set_audit_trail ["Error: Knowledge base retrieval failed: no index"] Demo.fresh,
     [ERetrieveKB "hi for Heirs Insurance Group"]).
Proof.
  split; [reflexivity|]. split; [reflexivity|]. split.
  - apply (proj1 (C5_caught_retrieval_failure_is_an_empty_result Demo.dumps
                    Demo.env_web_down "k" "hi" [] Demo.fresh eq_refl)).
    reflexivity.
  - split; [reflexivity|].
    apply (proj1 (proj2 (proj2 (C5_caught_retrieval_failure_is_an_empty_result
                                  Demo.dumps Demo.env_kb_down "k" "hi" []
                                  Demo.fresh eq_refl)))).
    reflexivity.
Defined.

(** ** Turns that reach the chat completion *)

Section Generation.

Variable json_dumps : pyval -> string.

Import AIHandler PrinceChatbot.

Lemma record_turn_calls_in env user_input response s ev :
  In ev (calls (record_turn json_dumps env user_input response s)) ->
  exists v c, ev = ESaveChatContext v c.
Proof.
  rewrite record_turn_eq.
  destruct (customer_id_value (context s)); [|intros []].
  destruct (sqlite_error env InsertChatSession);
    (intros [<-|[]]; now eexists _, _).
Qed.

Lemma answering_state_cached env user_input phone_number s :
  session_ok s ->
  dict_mem "customer" (context s) = true ->
  contains "agent" (lower user_input) = false ->
  answering_state env user_input phone_number s = Some s.
Proof.
  intros (_ & _ & PC) C A. specialize (PC C).
  unfold answering_state. rewrite A, C, (privacy_not_refused _ PC).
  unfold dict_mem. unfold consent_recorded in PC. now rewrite PC.
Qed.

Lemma answering_state_customer env user_input phone_number s s1 :
  session_ok s ->
  answering_state env user_input phone_number s = Some s1 ->
  exists c, dict_get "customer" (context s1) = Some (PDict (customer_dict c)).
Proof.
  intros (_ & C & _). unfold answering_state.
  destruct (contains "agent" (lower user_input)); [discriminate|].
  destruct (negb (dict_mem "privacy" (context s))); [discriminate|].
  destruct (privacy_refused (context s)); [discriminate|].
  destruct (dict_mem "customer" (context s)) eqn:M.
  { intros [= <-]. destruct C as [C|C]; auto.
    unfold dict_mem in M. now rewrite C in M. }
  destruct (sqlite_error env SelectCustomer); [discriminate|].
  destruct (find_customer phone_number s) as [c|]; [|discriminate].
  intros [= <-]. exists c. unfold identified_as; simpl.
  apply dict_get_set_same.
Qed.

Lemma customer_id_of_row ctx c :
  dict_get "customer" ctx = Some (PDict (customer_dict c)) ->
  customer_id_value ctx = Ok (PInt (cust_id c)).
Proof. intros H. unfold customer_id_value. now rewrite H. Qed.

(** The chat completion is called only on a turn that passed the gates
    with an input that is no fixed intent, and on the prompt of that turn. *)
Lemma chat_completion_called env user_input phone_number s prompt u :
  session_ok s ->
  In (EChatCompletion prompt u)
     (calls (process_message json_dumps env user_input phone_number s)) ->
  exists key s1 c,
    answering_state env user_input phone_number s = Some s1 /\
    is_fixed_intent user_input = false /\
    SERP_API_KEY env = Some key /\
    line79 env key user_input = None /\
    prompt = prompt_of json_dumps env key user_input (context s1) /\
    u = user_input /\
    dict_get "customer" (context s1) = Some (PDict (customer_dict c)).
Proof.
  intros OK H.
  destruct (answering_state env user_input phone_number s) as [s1|] eqn:G.
  2:{ destruct (turn_stops json_dumps _ _ _ _ G) as (N & _).
      assert (E : existsb routes_or_generates
                    (calls (process_message json_dumps env user_input phone_number s))
                  = true).
      { apply existsb_exists. exists (EChatCompletion prompt u). now split. }
      congruence. }
  destruct (answering_state_customer _ _ _ _ _ OK G) as (c & C).
  rewrite (turn_answers json_dumps _ _ _ _ _ G) in H.
  unfold after in H. cbn [calls snd] in H.
  apply in_app_or in H. destruct H as [H|H].
  { unfold lookup_calls in H.
    destruct (dict_mem "customer" (context s)); simpl in H; [easy|].
    now destruct H as [H|[]]. }
  destruct (is_fixed_intent user_input) eqn:I.
  { rewrite (answer_intent _ _ _ _ I) in H.
    unfold after in H. cbn [calls snd app] in H. destruct H as [H|H]; [easy|].
    apply record_turn_calls_in in H. now destruct H as (v & x & H). }
  destruct (SERP_API_KEY env) as [key|] eqn:K.
  2:{ rewrite (answer_no_key _ _ _ _ I K) in H. cbn [calls snd] in H.
      now destruct H as [H|[H|[]]]. }
  destruct (line79 env key user_input) as [e79|] eqn:L79.
  { rewrite (answer_line79 _ _ _ _ _ _ I K L79) in H. cbn [calls snd search_calls] in H.
    now destruct H as [H|[H|[]]]. }
  exists key, s1, c. rewrite (answer_generative _ _ _ _ _ I K L79) in H.
  assert (E : EChatCompletion prompt u
              = EChatCompletion (prompt_of json_dumps env key user_input (context s1))
                  user_input).
  { destruct (chat_completion _ _ _).
    - unfold after in H. cbn [calls snd generative_calls app] in H.
      destruct H as [H|[H|[H|[H|H]]]]; try easy.
      apply record_turn_calls_in in H. now destruct H as (v & x & H).
    - cbn [calls snd generative_calls] in H.
      now destruct H as [H|[H|[H|[H|[]]]]]. }
  injection E as -> ->. now repeat split.
Qed.

Lemma generative_turn env key user_input phone_number s s1 :
  answering_state env user_input phone_number s = Some s1 ->
  is_fixed_intent user_input = false ->
  SERP_API_KEY env = Some key ->
  line79 env key user_input = None ->
  process_message json_dumps env user_input phone_number s =
    after (lookup_calls phone_number s)
      match chat_completion env (prompt_of json_dumps env key user_input (context s1))
              user_input with
      | Ok response =>
          after (generative_calls json_dumps env key user_input (context s1))
            (record_turn json_dumps env user_input response
               (add_audit (retrieval_audit env key user_input) s1))
      | Raise e =>
          (Raise e, add_audit (retrieval_audit env key user_input) s1,
           generative_calls json_dumps env key user_input (context s1))
      end.
Proof.
  intros G I K L. rewrite (turn_answers json_dumps _ _ _ _ _ G).
  now rewrite (answer_generative _ _ _ _ _ I K L).
Qed.

End Generation.

(** C4, as stated, fails: with the search down and one document "D" from
    the knowledge base, the grounding context in the prompt is a newline
    followed by "D", which is not "D". *)
Lemma C4_counterexample :
  let input := "what is covered" in
  let x := turn Demo.dumps (Demo.says Demo.env_web_down input) Demo.identified in
  let prompt fused :=
    AIHandler.build_prompt
      (Demo.dumps (AIHandler.customer_entry (context Demo.identified))) fused input in
  serper Demo.env_web_down "k" (AIHandler.refined_query input) = Raise "timed out" /\
  faiss Demo.env_web_down (AIHandler.refined_query input) = Ok [Demo.doc_d] /\
  calls x =
    [EGenerateResponse input;
     EGoogleSearch (AIHandler.refined_query input);
     ERetrieveKB (AIHandler.refined_query input);
     EChatCompletion (prompt (nl ++ page_content Demo.doc_d)) input;
     ESaveChatContext (PInt 7) (Demo.dumps (PDict (context Demo.identified)))] /\
  String.eqb (nl ++ page_content Demo.doc_d) (page_content Demo.doc_d) = false.
Proof. vm_compute. repeat split. Qed.

(** C4, amended. For an identified customer and an open-ended message,
    when the search request raises and the knowledge base returns exactly
    one document, the grounding context in the prompt is the empty web
    block, the newline separator and the document's content (or the "No
    relevant information found." sentence when that content is empty),
    the failure is logged, and the chat completion is called on that
    prompt. *)
Theorem C4_web_failure_one_document
  (json_dumps : pyval -> string) (env : Env)
  (user_input phone_number key e : string) (d : Document) (s : State) :
  reachable json_dumps s ->
  dict_mem "customer" (context s) = true ->
  contains "agent" (lower user_input) = false ->
  PrinceChatbot.is_fixed_intent user_input = false ->
  SERP_API_KEY env = Some key ->
  serper env key (AIHandler.refined_query user_input) = Raise e ->
  faiss env (AIHandler.refined_query user_input) = Ok [d] ->
  let x := PrinceChatbot.process_message json_dumps env user_input phone_number s in
  let fused :=
    if nonempty (page_content d) then nl ++ page_content d
    else "No relevant information found." in
  let prompt :=
    AIHandler.build_prompt (json_dumps (AIHandler.customer_entry (context s)))
      fused user_input in
  AIHandler.search_context (AIHandler.web_context []) (AIHandler.kb_context [d]) = fused /\
  (exists rest,
     calls x =
       [EGenerateResponse user_input;
        EGoogleSearch (AIHandler.refined_query user_input);
        ERetrieveKB (AIHandler.refined_query user_input);
        EChatCompletion prompt user_input] ++ rest)%list /\
  audit_trail (post x) =
    (audit_trail s ++ [("Error: Google search failed: " ++ e)%string])%list.
Proof.
  intros R C A I K W F x fused prompt.
  apply reachable_session_ok in R.
  assert (Fu : AIHandler.search_context (AIHandler.web_context [])
                 (AIHandler.kb_context [d]) = fused) by reflexivity.
  split; [exact Fu|].
  pose proof (answering_state_cached env user_input phone_number s R C A) as G.
  assert (L79 : line79 env key user_input = None).
  { unfold line79, web_results, web_outcome. now rewrite W. }
  subst x. rewrite (generative_turn json_dumps _ _ _ _ _ _ G I K L79).
  unfold lookup_calls. rewrite C, after_nil.
  assert (P : prompt_of json_dumps env key user_input (context s) = prompt).
  { unfold prompt_of, web_entries, web_results, web_outcome, kb_docs.
    rewrite W, F. unfold AIHandler.read_results. cbn [iterate collect str_items map].
    subst prompt. apply (f_equal (fun c => AIHandler.build_prompt _ c _)).
    exact Fu. }
  assert (L : retrieval_audit env key user_input
              = ["Error: Google search failed: " ++ e]).
  { unfold retrieval_audit, web_audit, web_outcome, kb_audit. now rewrite W, F. }
  unfold generative_calls. rewrite P, L.
  destruct (chat_completion env prompt user_input) as [response|e'].
  - split.
    + eexists. unfold after. cbn [calls snd]. reflexivity.
    + unfold after. cbn [post fst snd]. rewrite record_turn_eq.
      destruct (customer_id_value _); [|reflexivity].
      destruct (sqlite_error env InsertChatSession); reflexivity.
  - split; [now exists []|reflexivity].
Qed.

Lemma C4_witness :
  reachable Demo.dumps Demo.identified /\
  AIHandler.search_context (AIHandler.web_context [])
    (AIHandler.kb_context [Demo.doc_d]) = nl ++ "D".
Proof.
  assert (R : reachable Demo.dumps Demo.identified).
  { apply reachable_session. apply reachable_new. }
  split; [exact R|].
  refine (proj1 (C4_web_failure_one_document Demo.dumps Demo.env_web_down
                   "what is covered" "0801" "k" "timed out" Demo.doc_d
                   Demo.identified R _ _ _ _ _ _)); reflexivity.
Defined.

(** ** Snapshots *)

Section Snapshots.

Variable json_dumps : pyval -> string.

Import AIHandler PrinceChatbot.

Lemma existsb_answers_routes l :
  existsb routes_or_generates l = false -> existsb answers l = false.
Proof.
  induction l as [|e l IH]; simpl; auto.
  intros H. apply orb_false_iff in H. destruct H as [H1 H2].
  rewrite (IH H2). now destruct e.
Qed.

(** Line 163 appends one row when the insertion succeeds, none when
    [record_turn] raises. *)
Lemma record_turn_rows env user_input response s :
  let x := record_turn json_dumps env user_input response s in
  exists rows,
    chat_sessions (post x) = (chat_sessions s ++ rows)%list /\
    length rows = if is_ok (outcome x) then 1 else 0.
Proof.
  simpl. rewrite record_turn_eq.
  destruct (customer_id_value (context s)).
  - destruct (sqlite_error env InsertChatSession).
    + exists []. simpl. now rewrite app_nil_r.
    + now eexists [_].
  - exists []. simpl. now rewrite app_nil_r.
Qed.

Lemma answer_rows env user_input s :
  let x := answer json_dumps env user_input s in
  exists rows,
    chat_sessions (post x) = (chat_sessions s ++ rows)%list /\
    length rows = if is_ok (outcome x) then 1 else 0.
Proof.
  simpl. destruct (is_fixed_intent user_input) eqn:I.
  - rewrite (answer_intent _ _ _ _ I). apply record_turn_rows.
  - destruct (SERP_API_KEY env) as [key|] eqn:K.
    + destruct (line79 env key user_input) as [e79|] eqn:L79.
      { rewrite (answer_line79 _ _ _ _ _ _ I K L79). exists []. simpl. now rewrite app_nil_r. }
      rewrite (answer_generative _ _ _ _ _ I K L79).
      destruct (chat_completion _ _ _).
      * apply (record_turn_rows env user_input a
                 (add_audit (retrieval_audit env key user_input) s)).
      * exists []. simpl. now rewrite app_nil_r.
    + rewrite (answer_no_key _ _ _ _ I K).
      exists []. simpl. now rewrite app_nil_r.
Qed.

End Snapshots.

(** C3, as stated, fails: an identified customer who sends the fixed
    intent "make a claim" gets the canned answer, no generation is called,
    and one row is appended to [chat_sessions]. *)
Lemma C3_counterexample :
  let x := turn Demo.dumps (Demo.says Demo.env_ok "make a claim") Demo.identified in
  PrinceChatbot.is_fixed_intent "make a claim" = true /\
  outcome x = Ok "To make a claim, please upload the necessary documents." /\
  calls x =
    [EHandlePurpose "make a claim";
     ESaveChatContext (PInt 7) (Demo.dumps (PDict (context Demo.identified)))] /\
  chat_sessions (post x) =
    (chat_sessions Demo.identified ++
     [{| cs_customer_id := PInt 7;
         cs_context := Demo.dumps (PDict (context Demo.identified));
         cs_start_time := 100 |}])%list.
Proof. vm_compute. repeat split. Qed.

(** C3, amended. A turn appends exactly one row to [chat_sessions] when
    it returns and was answered by lines 154 to 165, be it by the chat
    completion or by one of the four fixed intents; it appends no row when
    it ends at the escalation, at the consent gate or at the identity gate,
    or when it raises. *)
Theorem C3_one_snapshot_per_answered_turn
  (json_dumps : pyval -> string) (env : Env) (user_input phone_number : string)
  (s : State) :
  let x := PrinceChatbot.process_message json_dumps env user_input phone_number s in
  exists rows,
    chat_sessions (post x) = (chat_sessions s ++ rows)%list /\
    length rows = if is_ok (outcome x) && existsb answers (calls x) then 1 else 0.
Proof.
  simpl.
  destruct (answering_state env user_input phone_number s) as [s1|] eqn:G.
  - rewrite (turn_answers json_dumps _ _ _ _ _ G).
    destruct (answering_state_gates _ _ _ _ _ G) as (_ & _ & _ & _ & _ & CS & _).
    destruct (answer_calls json_dumps env user_input s1) as (e & rest & E & A).
    destruct (answer_rows json_dumps env user_input s1) as (rows & R & L).
    exists rows. unfold after. cbn [post outcome calls fst snd].
    rewrite existsb_app, E. cbn [existsb]. rewrite A, orb_true_r, andb_true_r.
    now rewrite R, CS.
  - destruct (turn_stops json_dumps _ _ _ _ G) as (N & CS & _).
    exists []. rewrite (existsb_answers_routes _ N), andb_false_r, app_nil_r.
    now split.
Qed.

(** C8, as stated, fails: the chat completion has answered "R", the
    insertion into [chat_sessions] raises, and [process_message] raises
    instead of returning "R". *)
Lemma C8_counterexample :
  let input := "what is covered" in
  let x := turn Demo.dumps (Demo.says Demo.env_insert_fails input) Demo.identified in
  sqlite_error Demo.env_insert_fails InsertChatSession = Some "database is locked" /\
  (exists prompt,
     In (EChatCompletion prompt input) (calls x) /\
     chat_completion Demo.env_insert_fails prompt input = Ok "R") /\
  outcome x = Raise "database is locked".
Proof.
  vm_compute. split; [reflexivity|]. split; [|reflexivity].
  eexists. split; [|reflexivity]. do 3 right. left. reflexivity.
Qed.

(** C8, amended. On a turn whose response the chat completion has
    computed, a failure of the insertion into [chat_sessions] leaves
    [process_message] by that exception: the response is not returned.  The
    two messages of the turn are already in the transcript, and no row has
    been appended. *)
Theorem C8_snapshot_failure_raises
  (json_dumps : pyval -> string) (env : Env)
  (user_input phone_number prompt u response e : string) (s : State) :
  reachable json_dumps s ->
  let x := PrinceChatbot.process_message json_dumps env user_input phone_number s in
  In (EChatCompletion prompt u) (calls x) ->
  chat_completion env prompt u = Ok response ->
  sqlite_error env InsertChatSession = Some e ->
  outcome x = Raise e /\
  chat_history (post x) =
    (chat_history s ++ [("user", user_input); ("assistant", response)])%list /\
  chat_sessions (post x) = chat_sessions s.
Proof.
  intros R x H Gen Ins. apply reachable_session_ok in R.
  destruct (chat_completion_called json_dumps _ _ _ _ _ _ R H)
    as (key & s1 & c & G & I & K & L79 & -> & -> & C).
  destruct (answering_state_gates _ _ _ _ _ G) as (_ & _ & _ & _ & _ & CS & CH & _).
  subst x. rewrite (generative_turn json_dumps _ _ _ _ _ _ G I K L79), Gen.
  rewrite record_turn_eq. cbn [add_audit set_audit_trail context].
  rewrite (customer_id_of_row _ _ C), Ins.
  unfold after, with_turn. cbn. now rewrite CS, CH.
Qed.

Lemma C8_witness :
  reachable Demo.dumps Demo.identified /\
  outcome (turn Demo.dumps (Demo.says Demo.env_insert_fails "what is covered")
             Demo.identified) = Raise "database is locked".
Proof.
  assert (R : reachable Demo.dumps Demo.identified).
  { apply reachable_session. apply reachable_new. }
  split; [exact R|].
  refine (proj1 (C8_snapshot_failure_raises Demo.dumps Demo.env_insert_fails
                   "what is covered" "0801" _ "what is covered" "R"
                   "database is locked" Demo.identified R _ _ _)).
  - do 3 right. left. reflexivity.
  - reflexivity.
  - reflexivity.
Defined.

(** ** Fixed intents *)

(** An input that is one of the four intents up to case reaches no
    retrieval and no generation: the turn is [handle_purpose] and the
    snapshot. *)
Lemma fixed_intent_turn
  (json_dumps : pyval -> string) (env : Env) (user_input phone_number : string)
  (s : State) :
  session_ok s ->
  dict_mem "customer" (context s) = true ->
  contains "agent" (lower user_input) = false ->
  PrinceChatbot.is_fixed_intent user_input = true ->
  let x := PrinceChatbot.process_message json_dumps env user_input phone_number s in
  existsb (fun e => routes_or_generates e && negb (answers e)) (calls x) = false /\
  (sqlite_error env InsertChatSession = None ->
   outcome x = Ok (PrinceChatbot.handle_purpose user_input)).
Proof.
  intros OK C A I x. subst x.
  pose proof (answering_state_cached env user_input phone_number s OK C A) as G.
  destruct (answering_state_customer _ _ _ _ _ OK G) as (c & Cu).
  rewrite (turn_answers json_dumps _ _ _ _ _ G), (answer_intent _ _ _ _ I).
  unfold lookup_calls. rewrite C, after_nil, record_turn_eq.
  rewrite (customer_id_of_row _ _ Cu).
  destruct (sqlite_error env InsertChatSession); split; try reflexivity.
  discriminate.
Qed.

(** C6 at the input "make a claim " (a trailing space), from an identified
    customer: trimmed and lowered the input is the fixed intent, yet line
    155 compares the untrimmed input, so the turn calls the search, the
    knowledge base and the chat completion, and returns the generated text
    instead of the canned answer. *)
Lemma C6_untrimmed_intent_is_generated :
  let input := "make a claim " in
  let x := turn Demo.dumps (Demo.says Demo.env_ok input) Demo.identified in
  lower (strip input) = "make a claim" /\
  PrinceChatbot.is_fixed_intent input = false /\
  firstn 3 (calls x) =
    [EGenerateResponse input;
     EGoogleSearch (AIHandler.refined_query input);
     ERetrieveKB (AIHandler.refined_query input)] /\
  existsb answers (skipn 3 (calls x)) = false /\
  outcome x = Ok "R" /\
  PrinceChatbot.handle_purpose (lower (strip input)) =
    "To make a claim, please upload the necessary documents.".
Proof. vm_compute. repeat split. Qed.

(** ** Escalation to an agent *)

Section Escalation.

Import PrinceChatbot.

Lemma least_recently_active_in l a :
  least_recently_active l = Some a -> In a l.
Proof.
  revert a. induction l as [|b r IH]; simpl; [discriminate|].
  intros a. destruct (least_recently_active r) as [c|].
  - destruct (Z.leb (agent_last_active b) (agent_last_active c));
      intros [= <-]; auto.
  - intros [= <-]; auto.
Qed.

Lemma least_recently_active_none l :
  least_recently_active l = None -> l = [].
Proof.
  destruct l as [|b r]; simpl; auto.
  destruct (least_recently_active r) as [c|]; [|discriminate].
  destruct (Z.leb (agent_last_active b) (agent_last_active c)); discriminate.
Qed.

(** The selected agent is the least recently active row. *)
Lemma least_recently_active_least l a :
  least_recently_active l = Some a ->
  forall b, In b l -> (agent_last_active a <= agent_last_active b)%Z.
Proof.
  revert a. induction l as [|c r IH]; simpl; [discriminate|].
  intros a. destruct (least_recently_active r) as [m|] eqn:E.
  - destruct (Z.leb (agent_last_active c) (agent_last_active m)) eqn:L;
      intros [= <-] b [<-|B].
    + lia.
    + apply Z.leb_le in L. specialize (IH m eq_refl b B). lia.
    + apply Z.leb_gt in L. lia.
    + now apply IH.
  - intros [= <-] b [<-|B]; [lia|].
    apply least_recently_active_none in E. now subst r.
Qed.

Lemma select_available_agent_some l a :
  select_available_agent l = Some a ->
  exists r,
    In r l /\ agent_status r = "available" /\
    agent_id r = ai_id a /\ agent_name r = ai_name a /\
    agent_email r = ai_email a /\ agent_expertise r = ai_expertise a /\
    forall r', In r' l -> agent_status r' = "available" ->
               (agent_last_active r <= agent_last_active r')%Z.
Proof.
  unfold select_available_agent.
  destruct (least_recently_active (filter is_available l)) as [r|] eqn:E;
    [|discriminate].
  intros [= <-]. exists r.
  pose proof (least_recently_active_in _ _ E) as I.
  apply filter_In in I. destruct I as (I & Av).
  apply String.eqb_eq in Av. repeat split; auto.
  intros r' I' Av'. apply (least_recently_active_least _ _ E).
  apply filter_In. split; auto. unfold is_available. now rewrite Av'.
Qed.

Lemma select_available_agent_none l :
  select_available_agent l = None ->
  forall r, In r l -> is_available r = false.
Proof.
  unfold select_available_agent.
  destruct (least_recently_active (filter is_available l)) as [r|] eqn:E;
    [discriminate|].
  intros _ r I. apply least_recently_active_none in E.
  destruct (is_available r) eqn:Av; auto.
  assert (F : In r (filter is_available l)) by (apply filter_In; now split).
  rewrite E in F. destruct F.
Qed.

Lemma update_agents_updated id status t l r :
  In r (update_agents id status t l) ->
  agent_id r = id ->
  agent_status r = status /\ agent_last_active r = t.
Proof.
  unfold update_agents. intros I E. apply in_map_iff in I.
  destruct I as (r0 & <- & _).
  destruct (Z.eqb (agent_id r0) id) eqn:Q; simpl in *; auto.
  apply Z.eqb_neq in Q. contradiction.
Qed.

End Escalation.

(** C7. On an input that contains "agent" in any case, when the store
    answers: if the selection finds an available agent, the response names
    its name, expertise and email; the [agents] table is the one before with
    every row of that id set to [busy] and to the present time and every
    other row kept, so that the row of the selected agent is there, busy and
    just active; and the "Agent Escalation" line is written.  If no row is
    available, the response is the fixed message and nothing at all has
    changed. *)
Theorem C7_agent_escalation
  (json_dumps : pyval -> string) (env : Env) (user_input phone_number : string)
  (s : State) :
  contains "agent" (lower user_input) = true ->
  sqlite_error env SelectAgent = None ->
  sqlite_error env UpdateAgent = None ->
  let x := PrinceChatbot.process_message json_dumps env user_input phone_number s in
  match PrinceChatbot.select_available_agent (agents s) with
  | Some a =>
      (exists r,
         In r (agents s) /\ agent_status r = "available" /\
         agent_id r = ai_id a /\ agent_name r = ai_name a /\
         agent_email r = ai_email a /\ agent_expertise r = ai_expertise a) /\
      outcome x =
        Ok ("Connecting you with " ++ ai_name a ++ ", who specializes in " ++
            ai_expertise a ++ ". Contact: " ++ ai_email a ++ ".") /\
      agents (post x) =
        map (fun r =>
               if Z.eqb (agent_id r) (ai_id a) then
                 {| agent_id := agent_id r; agent_name := agent_name r;
                    agent_email := agent_email r;
                    agent_expertise := agent_expertise r;
                    agent_status := "busy"; agent_last_active := now env |}
               else r) (agents s) /\
      (exists r,
         In r (agents (post x)) /\
         agent_id r = ai_id a /\ agent_name r = ai_name a /\
         agent_email r = ai_email a /\ agent_expertise r = ai_expertise a /\
         agent_status r = "busy" /\ agent_last_active r = now env) /\
      (forall r, In r (agents (post x)) -> agent_id r = ai_id a ->
                 agent_status r = "busy" /\ agent_last_active r = now env) /\
      (forall r, In r (agents s) -> agent_id r <> ai_id a ->
                 In r (agents (post x))) /\
      length (agents (post x)) = length (agents s) /\
      audit_trail (post x) =
        (audit_trail s ++
         [("Agent Escalation: Customer connected to agent " ++ ai_name a ++ ".")%string])%list /\
      calls x = [EGetAvailableAgent; EUpdateAgentStatus (ai_id a) "busy"]
  | None =>
      (forall r, In r (agents s) -> PrinceChatbot.is_available r = false) /\
      x = (Ok "No agents available. Please try later or let me assist further.",
           s, [EGetAvailableAgent])
  end.
Proof.
  intros A S U x. subst x.
  rewrite process_message_eq, A, agent_request_eq, S.
  destruct (PrinceChatbot.select_available_agent (agents s)) as [a|] eqn:E.
  - rewrite U. cbn [outcome post calls fst snd].
    destruct (select_available_agent_some _ _ E) as (r & I & Av & Id & N & M & X & _).
    split; [now exists r|]. split; [reflexivity|]. split; [reflexivity|].
    split; [|split; [|split; [|split; [|split; reflexivity]]]].
    + exists {| agent_id := agent_id r; agent_name := agent_name r;
                agent_email := agent_email r; agent_expertise := agent_expertise r;
                agent_status := "busy"; agent_last_active := now env |}.
      split; [|now repeat split].
      cbn [escalated add_audit set_audit_trail set_agents agents].
      unfold PrinceChatbot.update_agents. apply in_map_iff. exists r.
      split; auto. rewrite Id, Z.eqb_refl. reflexivity.
    + intros r' I' Q.
      exact (update_agents_updated _ _ _ (agents s) r' I' Q).
    + intros r' I' Q.
      cbn [escalated add_audit set_audit_trail set_agents agents].
      unfold PrinceChatbot.update_agents. apply in_map_iff. exists r'.
      split; auto. apply Z.eqb_neq in Q. now rewrite Q.
    + cbn [escalated add_audit set_audit_trail set_agents agents].
      unfold PrinceChatbot.update_agents. apply length_map.
  - split; [|reflexivity]. now apply select_available_agent_none.
Qed.

Lemma C7_witness :
  contains "agent" (lower "I want an Agent") = true /\
  outcome (PrinceChatbot.process_message Demo.dumps Demo.env_ok
             "I want an Agent" "0801" Demo.identified)
  = Ok "Connecting you with A, who specializes in Motor. Contact: a@x.com." /\
  agents (post (PrinceChatbot.process_message Demo.dumps Demo.env_ok
                  "I want an Agent" "0801" Demo.identified))
  = [{| agent_id := 1; agent_name := "A"; agent_email := "a@x.com";
        agent_expertise := "Motor"; agent_status := "busy";
        agent_last_active := 100 |}].
Proof.
  split; [reflexivity|].
  pose proof (C7_agent_escalation Demo.dumps Demo.env_ok "I want an Agent" "0801"
                Demo.identified eq_refl eq_refl eq_refl) as H.
  split; [exact (proj1 (proj2 H))|exact (proj1 (proj2 (proj2 H)))].
Defined.

(** ** Identity resolution *)

(** The number of customer lookups among some calls. *)
Definition lookups (tr : list Event) : nat :=
  length (filter looks_up_customer tr).

(** A turn resolves the identity when it looks the customer up and leaves
    a customer entry in the context. *)
Definition resolves (json_dumps : pyval -> string) (t : Turn) (s : State) : bool :=
  existsb looks_up_customer (calls (turn json_dumps t s))
  && dict_mem "customer" (context (post (turn json_dumps t s))).

(** The number of turns of a session that resolve the identity. *)
Fixpoint resolutions (json_dumps : pyval -> string) (ts : list Turn) (s : State)
  : nat :=
  match ts with
  | [] => 0
  | t :: r =>
      (if resolves json_dumps t s then 1 else 0)
      + resolutions json_dumps r (post (turn json_dumps t s))
  end.

Section Identity.

Variable json_dumps : pyval -> string.

Import AIHandler PrinceChatbot.

Lemma lookups_none l : existsb looks_up_customer l = false -> lookups l = 0.
Proof.
  unfold lookups. induction l as [|e l IH]; simpl; auto.
  intros H. apply orb_false_iff in H. destruct H as [-> H]. auto.
Qed.

Lemma lookups_app l1 l2 : lookups (l1 ++ l2) = lookups l1 + lookups l2.
Proof. unfold lookups. now rewrite filter_app, length_app. Qed.

(** With the customer cached, a turn looks nobody up and keeps the entry. *)
Lemma cached_turn t s :
  dict_mem "customer" (context s) = true ->
  existsb looks_up_customer (calls (turn json_dumps t s)) = false /\
  dict_get "customer" (context (post (turn json_dumps t s)))
  = dict_get "customer" (context s).
Proof.
  intros C. unfold turn. split.
  - rewrite process_message_eq.
    destruct (contains "agent" (lower (turn_input t))).
    { now apply agent_request_calls. }
    destruct (negb (dict_mem "privacy" (context s))).
    { now rewrite privacy_confirmation_calls. }
    destruct (privacy_refused (context s)); [reflexivity|].
    rewrite identify_then_answer_eq, C.
    apply answer_calls_none. now intros e ->.
  - destruct (turn_context json_dumps (turn_env t) (turn_input t) (turn_phone t) s)
      as [E | [[_ E] | (_ & _ & N & _)]].
    + now rewrite E.
    + rewrite E. now apply dict_get_set_other.
    + congruence.
Qed.

Lemma cached_session ts s :
  dict_mem "customer" (context s) = true ->
  lookups (concat (session_calls json_dumps ts s)) = 0 /\
  dict_get "customer" (context (session json_dumps ts s))
  = dict_get "customer" (context s) /\
  resolutions json_dumps ts s = 0.
Proof.
  revert s. induction ts as [|t r IH]; intros s C; simpl; auto.
  destruct (cached_turn t s C) as (L & K).
  assert (C' : dict_mem "customer" (context (post (turn json_dumps t s))) = true).
  { unfold dict_mem in *. now rewrite K. }
  destruct (IH _ C') as (L' & K' & R').
  rewrite lookups_app, (lookups_none _ L), L', K', K, R'.
  unfold resolves. now rewrite L.
Qed.

Lemma resolutions_at_most_one ts s : resolutions json_dumps ts s <= 1.
Proof.
  revert s. induction ts as [|t r IH]; intros s; simpl; [lia|].
  destruct (resolves json_dumps t s) eqn:E.
  - unfold resolves in E. apply andb_true_iff in E. destruct E as (_ & C).
    destruct (cached_session r _ C) as (_ & _ & ->). lia.
  - apply IH.
Qed.

End Identity.

(** C9, as stated, fails: a consented caller whose phone number matches no
    customer is looked up on each of the two turns that follow the consent,
    twice in one session, and nothing is cached. *)
Lemma C9_counterexample :
  let ts := [Demo.stranger_says Demo.env_ok "agree";
             Demo.stranger_says Demo.env_ok "hi";
             Demo.stranger_says Demo.env_ok "hi again"] in
  lookups (concat (session_calls Demo.dumps ts Demo.fresh)) = 2 /\
  dict_mem "customer" (context (session Demo.dumps ts Demo.fresh)) = false.
Proof. vm_compute. split; reflexivity. Qed.

(** C9, amended. In a session at most one turn resolves the identity:
    once the context holds a customer entry, no later turn looks the
    customer up and the entry stays as it is.  A lookup that finds the
    phone number stores the row under "customer"; a lookup that finds no
    row returns the message that directs to support and changes nothing,
    so the next turn behind the consent gate looks up again. *)
Theorem C9_identity_resolved_once_then_cached
  (json_dumps : pyval -> string) (ts : list Turn) (s : State) :
  resolutions json_dumps ts s <= 1 /\
  (dict_mem "customer" (context s) = true ->
   lookups (concat (session_calls json_dumps ts s)) = 0 /\
   dict_get "customer" (context (session json_dumps ts s))
   = dict_get "customer" (context s)) /\
  (forall t,
     contains "agent" (lower (turn_input t)) = false ->
     consent_recorded s ->
     dict_mem "customer" (context s) = false ->
     sqlite_error (turn_env t) SelectCustomer = None ->
     match find_customer (turn_phone t) s with
     | Some c =>
         dict_get "customer" (context (post (turn json_dumps t s)))
         = Some (PDict (PrinceChatbot.customer_dict c))
     | None =>
         turn json_dumps t s =
           (Ok "Sorry, we couldn't find your details. Please contact support for assistance.",
            s, [EGetCustomerInfo (turn_phone t)])
     end).
Proof.
  split; [apply resolutions_at_most_one|]. split.
  - intros C. destruct (cached_session json_dumps ts s C) as (L & K & _). now split.
  - intros t A P C S. unfold turn.
    rewrite process_message_eq, A.
    assert (M : dict_mem "privacy" (context s) = true).
    { unfold dict_mem. unfold consent_recorded in P. now rewrite P. }
    rewrite M, (privacy_not_refused _ P). cbn [negb].
    rewrite identify_then_answer_eq, C, S.
    destruct (find_customer (turn_phone t) s) as [c|]; [|reflexivity].
    unfold after. cbn [post fst snd]. rewrite answer_context.
    unfold identified_as. cbn [context set_context]. apply dict_get_set_same.
Qed.

Lemma C9_witness :
  dict_mem "customer" (context Demo.identified) = true /\
  lookups (concat (session_calls Demo.dumps
                     [Demo.says Demo.env_ok "hello"; Demo.says Demo.env_ok "Make a Claim"]
                     Demo.identified)) = 0.
Proof.
  split; [reflexivity|].
  refine (proj1 (proj1 (proj2 (C9_identity_resolved_once_then_cached Demo.dumps
                   [Demo.says Demo.env_ok "hello"; Demo.says Demo.env_ok "Make a Claim"]
                   Demo.identified)) _)).
  reflexivity.
Defined.

(** * Further properties of the code *)

(** ** Letter case and blanks *)

Lemma lower_char_idempotent c : lower_char (lower_char c) = lower_char c.
Proof. destruct c as [[] [] [] [] [] [] [] []]; reflexivity. Qed.

Lemma lower_idempotent s : lower (lower s) = lower s.
Proof.
  induction s as [|c r IH]; simpl; auto.
  now rewrite lower_char_idempotent, IH.
Qed.

(** The four intents of line 155, as a relation between the lowered input
    and the canned response of [handle_purpose]. *)
Definition canned_for (lowered response : string) : Prop :=
  (lowered = "buy a product" /\
   response = "What category of insurance would you like? Options: Life, Health, Motor, Personal Accident.") \/
  (lowered = "view your policies" /\
   response = "Please provide your policy number to view details.") \/
  (lowered = "make a claim" /\
   response = "To make a claim, please upload the necessary documents.") \/
  (lowered = "make a complaint" /\
   response = "Please describe your issue so we can assist you promptly.").

Lemma fixed_intent_canned user_input :
  PrinceChatbot.is_fixed_intent user_input = true ->
  canned_for (lower user_input) (PrinceChatbot.handle_purpose user_input).
Proof.
  unfold PrinceChatbot.is_fixed_intent, PrinceChatbot.fixed_intents,
    PrinceChatbot.handle_purpose, canned_for. cbn [existsb].
  destruct (String.eqb (lower user_input) "buy a product") eqn:E1.
  { apply String.eqb_eq in E1. auto. }
  destruct (String.eqb (lower user_input) "view your policies") eqn:E2.
  { apply String.eqb_eq in E2. auto. }
  destruct (String.eqb (lower user_input) "make a claim") eqn:E3.
  { apply String.eqb_eq in E3. auto. }
  destruct (String.eqb (lower user_input) "make a complaint") eqn:E4.
  { apply String.eqb_eq in E4. intros _. do 3 right. auto. }
  discriminate.
Qed.

(** No fixed intent is an agent request. *)
Lemma fixed_intent_no_agent user_input :
  PrinceChatbot.is_fixed_intent user_input = true ->
  contains "agent" (lower user_input) = false.
Proof.
  intros I. destruct (fixed_intent_canned _ I) as [[E _]|[[E _]|[[E _]|[E _]]]];
    rewrite E; reflexivity.
Qed.

(** X1. For an identified customer, an input that is one of the four
    fixed intents up to letter case is answered by its canned response: the
    turn calls [handle_purpose] and the snapshot insertion and nothing
    else, so no search, no retrieval and no generation, and both messages
    enter the transcript. *)
Theorem X1_fixed_intent_turn_is_canned
  (json_dumps : pyval -> string) (env : Env) (user_input phone_number : string)
  (s : State) :
  reachable json_dumps s ->
  dict_mem "customer" (context s) = true ->
  PrinceChatbot.is_fixed_intent user_input = true ->
  sqlite_error env InsertChatSession = None ->
  let x := PrinceChatbot.process_message json_dumps env user_input phone_number s in
  let response := PrinceChatbot.handle_purpose user_input in
  outcome x = Ok response /\
  canned_for (lower user_input) response /\
  (exists v c, calls x = [EHandlePurpose user_input; ESaveChatContext v c]) /\
  chat_history (post x) =
    (chat_history s ++ [("user", user_input); ("assistant", response)])%list.
Proof.
  intros R C I Ins x response. subst x response.
  apply reachable_session_ok in R.
  pose proof (fixed_intent_no_agent _ I) as A.
  pose proof (answering_state_cached env user_input phone_number s R C A) as G.
  destruct (answering_state_customer _ _ _ _ _ R G) as (c & Cu).
  rewrite (turn_answers json_dumps _ _ _ _ _ G), (answer_intent _ _ _ _ I).
  unfold lookup_calls. rewrite C, after_nil, record_turn_eq.
  rewrite (customer_id_of_row _ _ Cu), Ins.
  split; [reflexivity|]. split; [now apply fixed_intent_canned|].
  split; [now eexists _, _|reflexivity].
Qed.

Lemma X1_witness :
  reachable Demo.dumps Demo.identified /\
  outcome (PrinceChatbot.process_message Demo.dumps Demo.env_ok "View Your Policies"
             "0801" Demo.identified)
  = Ok "Please provide your policy number to view details.".
Proof.
  assert (R : reachable Demo.dumps Demo.identified).
  { apply reachable_session. apply reachable_new. }
  split; [exact R|].
  refine (proj1 (X1_fixed_intent_turn_is_canned Demo.dumps Demo.env_ok
                   "View Your Policies" "0801" Demo.identified R _ _ _));
    reflexivity.
Defined.

(** X2. [handle_purpose] ignores letter case, and it returns its generic
    last answer exactly on the inputs that line 155 does not send to it:
    through [process_message] that answer is never given. *)
Theorem X2_handle_purpose_fallback
  (purpose : string) :
  PrinceChatbot.handle_purpose (lower purpose) = PrinceChatbot.handle_purpose purpose /\
  String.eqb (PrinceChatbot.handle_purpose purpose)
    "I'm here to help with your insurance needs!"
  = negb (PrinceChatbot.is_fixed_intent purpose).
Proof.
  split.
  - unfold PrinceChatbot.handle_purpose. now rewrite lower_idempotent.
  - unfold PrinceChatbot.is_fixed_intent, PrinceChatbot.fixed_intents,
      PrinceChatbot.handle_purpose. cbn [existsb].
    destruct (String.eqb (lower purpose) "buy a product"); [reflexivity|].
    destruct (String.eqb (lower purpose) "view your policies"); [reflexivity|].
    destruct (String.eqb (lower purpose) "make a claim"); [reflexivity|].
    destruct (String.eqb (lower purpose) "make a complaint"); reflexivity.
Qed.

(** ** What a turn leaves of the stores *)

Section Frames.

Variable json_dumps : pyval -> string.

Import AIHandler PrinceChatbot.

(** A transcript that is as it was, or longer by the two messages of the
    turn. *)
Definition transcript_step (user_input : string) (before after : list (string * string))
  : Prop :=
  after = before \/
  exists response,
    after = (before ++ [("user", user_input); ("assistant", response)])%list.

Definition extends {A} (before after : list A) : Prop :=
  exists more, after = (before ++ more)%list.

Lemma extends_refl {A} (l : list A) : extends l l.
Proof. exists []. now rewrite app_nil_r. Qed.

Lemma extends_trans {A} (l1 l2 l3 : list A) :
  extends l1 l2 -> extends l2 l3 -> extends l1 l3.
Proof. intros (m1 & ->) (m2 & ->). exists (m1 ++ m2)%list. now rewrite app_assoc. Qed.

Lemma record_turn_frame env user_input response s :
  let x := record_turn json_dumps env user_input response s in
  agents (post x) = agents s /\
  customers (post x) = customers s /\
  audit_trail (post x) = audit_trail s /\
  chat_history (post x) =
    (chat_history s ++ [("user", user_input); ("assistant", response)])%list.
Proof.
  simpl. rewrite record_turn_eq.
  destruct (customer_id_value (context s)); [|now repeat split].
  destruct (sqlite_error env InsertChatSession); now repeat split.
Qed.

Lemma answer_frame env user_input s :
  let x := answer json_dumps env user_input s in
  agents (post x) = agents s /\
  customers (post x) = customers s /\
  extends (audit_trail s) (audit_trail (post x)) /\
  transcript_step user_input (chat_history s) (chat_history (post x)).
Proof.
  simpl. destruct (is_fixed_intent user_input) eqn:I.
  - rewrite (answer_intent _ _ _ _ I).
    destruct (record_turn_frame env user_input (handle_purpose user_input) s)
      as (A & C & L & H).
    unfold after. cbn [post fst snd]. rewrite A, C, L, H.
    repeat split; [apply extends_refl|right; now eexists].
  - destruct (SERP_API_KEY env) as [key|] eqn:K.
    + destruct (line79 env key user_input) as [e79|] eqn:L79.
      { rewrite (answer_line79 _ _ _ _ _ _ I K L79). repeat split; [now eexists|now left]. }
      rewrite (answer_generative _ _ _ _ _ I K L79).
      destruct (chat_completion _ _ _) as [response|e].
      * destruct (record_turn_frame env user_input response
                    (add_audit (retrieval_audit env key user_input) s))
          as (A & C & L & H).
        unfold after. cbn [post fst snd]. rewrite A, C, L, H.
        repeat split; [now eexists|right; now eexists].
      * repeat split; [now eexists|now left].
    + rewrite (answer_no_key _ _ _ _ I K).
      repeat split; [apply extends_refl|now left].
Qed.

Lemma turn_frame env user_input phone_number s :
  let x := process_message json_dumps env user_input phone_number s in
  customers (post x) = customers s /\
  extends (audit_trail s) (audit_trail (post x)) /\
  transcript_step user_input (chat_history s) (chat_history (post x)) /\
  (agents (post x) = agents s \/
   contains "agent" (lower user_input) = true /\
   exists a,
     select_available_agent (agents s) = Some a /\
     agents (post x) = update_agents (ai_id a) "busy" (now env) (agents s)).
Proof.
  simpl. rewrite process_message_eq.
  destruct (contains "agent" (lower user_input)).
  { rewrite agent_request_eq.
    destruct (sqlite_error env SelectAgent).
    { repeat split; [apply extends_refl|now left|now left]. }
    destruct (select_available_agent (agents s)) as [a|].
    2:{ repeat split; [apply extends_refl|now left|now left]. }
    destruct (sqlite_error env UpdateAgent).
    { repeat split; [apply extends_refl|now left|now left]. }
    repeat split; [now eexists|now left|right]. split; auto. now exists a. }
  destruct (negb (dict_mem "privacy" (context s))).
  { rewrite privacy_confirmation_eq.
    destruct (String.eqb (lower (strip user_input)) "agree").
    { repeat split; [apply extends_refl|now left|now left]. }
    destruct (String.eqb (lower (strip user_input)) "disagree");
      (repeat split; [apply extends_refl|now left|now left]). }
  destruct (privacy_refused (context s)).
  { repeat split; [apply extends_refl|now left|now left]. }
  rewrite identify_then_answer_eq.
  destruct (dict_mem "customer" (context s)).
  { destruct (answer_frame env user_input s) as (A & C & L & H).
    repeat split; auto. }
  destruct (sqlite_error env SelectCustomer).
  { repeat split; [apply extends_refl|now left|now left]. }
  destruct (find_customer phone_number s) as [c|].
  2:{ repeat split; [apply extends_refl|now left|now left]. }
  destruct (answer_frame env user_input (identified_as c s)) as (A & C & L & H).
  unfold after. cbn [post fst snd]. repeat split; auto.
Qed.

(** *** Busy agents *)

(** Every row of this id is busy. *)
Definition busy_id (id : Z) (l : list Agent) : Prop :=
  forall r, In r l -> agent_id r = id -> agent_status r = "busy".

Lemma busy_id_update id id' t l :
  busy_id id l -> busy_id id (update_agents id' "busy" t l).
Proof.
  unfold busy_id, update_agents. intros B r I E.
  apply in_map_iff in I. destruct I as (r0 & <- & I0).
  destruct (Z.eqb (agent_id r0) id'); simpl in *; auto.
Qed.

Lemma busy_id_after_update id t l : busy_id id (update_agents id "busy" t l).
Proof.
  intros r I E. now destruct (update_agents_updated _ _ _ _ _ I E).
Qed.

Lemma busy_id_turn id t s :
  busy_id id (agents s) -> busy_id id (agents (post (turn json_dumps t s))).
Proof.
  intros B. unfold turn.
  destruct (turn_frame (turn_env t) (turn_input t) (turn_phone t) s)
    as (_ & _ & _ & [E|(_ & a & _ & E)]); rewrite E; auto.
  now apply busy_id_update.
Qed.

Lemma busy_id_session id ts s :
  busy_id id (agents s) -> busy_id id (agents (session json_dumps ts s)).
Proof.
  revert s. induction ts as [|t r IH]; intros s B; simpl; auto.
  apply IH. now apply busy_id_turn.
Qed.

Lemma busy_id_not_selected id l b :
  busy_id id l -> select_available_agent l = Some b -> ai_id b <> id.
Proof.
  intros B S E.
  destruct (select_available_agent_some _ _ S) as (r & I & Av & Id & _).
  rewrite (B r I) in Av by congruence. discriminate.
Qed.

End Frames.

(** A desk with two agents, the second one idle for longer. *)
Module Desk.

Definition agent_b : Agent :=
  {| agent_id := 2; agent_name := "B"; agent_email := "b@x.com";
     agent_expertise := "Life"; agent_status := "available";
     agent_last_active := 5 |}.

Definition fresh : State := new_session [Demo.agent_a; agent_b] [Demo.ada] [] [].

End Desk.

(** X3. An agent is given to one request only: after an escalation to an
    agent, every row of its id is busy and stays busy through whatever
    turns follow in the session, so no later escalation of the session
    selects that id again. *)
Theorem X3_agent_is_assigned_once
  (json_dumps : pyval -> string) (env : Env) (user_input phone_number : string)
  (s : State) (a : AgentInfo) (ts : list Turn) :
  contains "agent" (lower user_input) = true ->
  sqlite_error env SelectAgent = None ->
  sqlite_error env UpdateAgent = None ->
  PrinceChatbot.select_available_agent (agents s) = Some a ->
  let s' :=
    session json_dumps ts
      (post (PrinceChatbot.process_message json_dumps env user_input phone_number s)) in
  (forall r, In r (agents s') -> agent_id r = ai_id a -> agent_status r = "busy") /\
  (forall b, PrinceChatbot.select_available_agent (agents s') = Some b ->
             ai_id b <> ai_id a).
Proof.
  intros A S U Sel s'.
  assert (B : busy_id (ai_id a) (agents s')).
  { subst s'. apply busy_id_session.
    rewrite process_message_eq, A, agent_request_eq, S, Sel, U.
    apply busy_id_after_update. }
  split; [exact B|].
  intros b. now apply busy_id_not_selected.
Qed.

Lemma X3_witness :
  contains "agent" (lower "agent please") = true /\
  PrinceChatbot.select_available_agent (agents Desk.fresh)
  = Some {| ai_id := 2; ai_name := "B"; ai_email := "b@x.com"; ai_expertise := "Life" |} /\
  PrinceChatbot.select_available_agent
    (agents (session Demo.dumps [Demo.says Demo.env_ok "agree"]
               (post (PrinceChatbot.process_message Demo.dumps Demo.env_ok
                        "agent please" "0801" Desk.fresh))))
  = Some {| ai_id := 1; ai_name := "A"; ai_email := "a@x.com"; ai_expertise := "Motor" |} /\
  (1 <> 2)%Z.
Proof.
  split; [reflexivity|]. split; [reflexivity|]. split; [reflexivity|].
  exact (proj2 (X3_agent_is_assigned_once Demo.dumps Demo.env_ok
                  "agent please" "0801" Desk.fresh
                  {| ai_id := 2; ai_name := "B"; ai_email := "b@x.com";
                     ai_expertise := "Life" |}
                  [Demo.says Demo.env_ok "agree"]
                  eq_refl eq_refl eq_refl eq_refl)
               {| ai_id := 1; ai_name := "A"; ai_email := "a@x.com";
                  ai_expertise := "Motor" |} eq_refl).
Defined.

(** X4. [get_available_agent] only reads.  When the statement succeeds it
    returns an agent exactly when some row is available, and the agent
    returned is an available row that no available row precedes in
    [last_active]; when the statement raises, the exception is passed on. *)
Theorem X4_least_recently_active_available_agent
  (env : Env) (s : State) :
  match sqlite_error env SelectAgent with
  | Some e =>
      PrinceChatbot.get_available_agent env s = (Raise e, s, [EGetAvailableAgent])
  | None =>
      exists found,
        PrinceChatbot.get_available_agent env s = (Ok found, s, [EGetAvailableAgent]) /\
        match found with
        | Some a =>
            exists r,
              In r (agents s) /\ agent_status r = "available" /\
              agent_id r = ai_id a /\ agent_name r = ai_name a /\
              agent_email r = ai_email a /\ agent_expertise r = ai_expertise a /\
              forall r', In r' (agents s) -> agent_status r' = "available" ->
                         (agent_last_active r <= agent_last_active r')%Z
        | None =>
            forall r, In r (agents s) ->
                      String.eqb (agent_status r) "available" = false
        end
  end.
Proof.
  unfold PrinceChatbot.get_available_agent, sqlite.
  destruct (sqlite_error env SelectAgent); [reflexivity|].
  exists (PrinceChatbot.select_available_agent (agents s)). split; [reflexivity|].
  destruct (PrinceChatbot.select_available_agent (agents s)) as [a|] eqn:E.
  - now apply select_available_agent_some.
  - now apply select_available_agent_none.
Qed.

(** ** Growth of the transcript and of the snapshots *)

Section Growth.

Variable json_dumps : pyval -> string.

Import AIHandler PrinceChatbot.

(** The row that line 163 inserts for this customer id and context. *)
Definition snapshot_row (env : Env) (customer_id : pyval) (ctx : dict) : ChatSession :=
  {| cs_customer_id := customer_id;
     cs_context := json_dumps (PDict ctx);
     cs_start_time := now env |}.

(** A turn that leaves the snapshots alone, or one that has written its two
    messages and its row. *)
Definition growth (env : Env) (user_input : string) (s s' : State) : Prop :=
  (chat_sessions s' = chat_sessions s /\
   transcript_step user_input (chat_history s) (chat_history s')) \/
  (exists v response,
     customer_id_value (context s') = Ok v /\
     chat_history s' =
       (chat_history s ++ [("user", user_input); ("assistant", response)])%list /\
     chat_sessions s' =
       (chat_sessions s ++ [snapshot_row env v (context s')])%list).

Lemma record_turn_growth env user_input response s :
  growth env user_input s (post (record_turn json_dumps env user_input response s)).
Proof.
  rewrite record_turn_eq. unfold growth.
  destruct (customer_id_value (context s)) as [v|e] eqn:V.
  - destruct (sqlite_error env InsertChatSession).
    + left. split; [reflexivity|]. right. now eexists.
    + right. exists v, response. cbn. now rewrite V.
  - left. split; [reflexivity|]. right. now eexists.
Qed.

Lemma growth_audit env user_input lines s s' :
  growth env user_input (add_audit lines s) s' -> growth env user_input s s'.
Proof. intros H; exact H. Qed.

Lemma answer_growth env user_input s :
  growth env user_input s (post (answer json_dumps env user_input s)).
Proof.
  destruct (is_fixed_intent user_input) eqn:I.
  - rewrite (answer_intent _ _ _ _ I). apply record_turn_growth.
  - destruct (SERP_API_KEY env) as [key|] eqn:K.
    + destruct (line79 env key user_input) as [e79|] eqn:L79.
      { rewrite (answer_line79 _ _ _ _ _ _ I K L79). left. split; [reflexivity|now left]. }
      rewrite (answer_generative _ _ _ _ _ I K L79).
      destruct (chat_completion _ _ _) as [response|e].
      * apply (growth_audit env user_input (retrieval_audit env key user_input)).
        apply record_turn_growth.
      * left. split; [reflexivity|now left].
    + rewrite (answer_no_key _ _ _ _ I K). left. split; [reflexivity|now left].
Qed.

Lemma turn_growth env user_input phone_number s :
  growth env user_input s
    (post (process_message json_dumps env user_input phone_number s)).
Proof.
  destruct (answering_state env user_input phone_number s) as [s1|] eqn:G.
  - rewrite (turn_answers json_dumps _ _ _ _ _ G).
    destruct (answering_state_gates _ _ _ _ _ G) as (_ & _ & _ & _ & _ & CS & CH & _).
    pose proof (answer_growth env user_input s1) as H.
    unfold growth in *. unfold after. cbn [post fst snd].
    now rewrite <- CS, <- CH.
  - destruct (turn_stops json_dumps _ _ _ _ G) as (_ & CS & CH).
    left. split; [exact CS|]. left. exact CH.
Qed.

(** A transcript made of whole turns. *)
Inductive transcript : list (string * string) -> Prop :=
| transcript_nil : transcript []
| transcript_turn h u a :
    transcript h -> transcript (h ++ [("user", u); ("assistant", a)])%list.

Lemma app_one_not_nil {A} (l : list A) (x : A) : (l ++ [x])%list <> l.
Proof.
  intros E. apply (f_equal (@length A)) in E. rewrite length_app in E.
  simpl in E. lia.
Qed.

End Growth.

(** X9. Through any sequence of turns the transcript of the chatbot stays
    a sequence of whole turns, a "user" message followed by an "assistant"
    message; [chat_sessions] only grows, and every row the session has
    appended stands for two messages of the transcript. *)
Theorem X9_transcript_of_whole_turns
  (json_dumps : pyval -> string) (ts : list Turn) (s : State) :
  transcript (chat_history s) ->
  let s' := session json_dumps ts s in
  transcript (chat_history s') /\
  exists rows,
    chat_sessions s' = (chat_sessions s ++ rows)%list /\
    length (chat_history s) + 2 * length rows <= length (chat_history s').
Proof.
  intros T. cbv zeta.
  revert s T. induction ts as [|t r IH]; intros s T; simpl.
  { split; auto. exists []. rewrite app_nil_r. simpl. split; auto. lia. }
  pose proof (turn_growth json_dumps (turn_env t) (turn_input t) (turn_phone t) s) as G.
  fold (turn json_dumps t s) in G.
  destruct G as [(CS & [CH|(a & CH)]) | (v & a & _ & CH & CS)].
  - destruct (IH (post (turn json_dumps t s))) as (T' & rows & E & L).
    { now rewrite CH. }
    split; auto. exists rows. rewrite E, CS. split; auto. rewrite CH in L. lia.
  - destruct (IH (post (turn json_dumps t s))) as (T' & rows & E & L).
    { rewrite CH. now constructor. }
    split; auto. exists rows. rewrite E, CS. split; auto.
    rewrite CH, length_app in L. simpl in L. lia.
  - destruct (IH (post (turn json_dumps t s))) as (T' & rows & E & L).
    { rewrite CH. now constructor. }
    split; auto. eexists. rewrite E, CS, <- app_assoc. split; [reflexivity|].
    rewrite CH, length_app in L. rewrite length_app. simpl in *. lia.
Qed.

Lemma X9_witness :
  transcript (chat_history Demo.fresh) /\
  transcript (chat_history Demo.identified).
Proof.
  split; [constructor|].
  refine (proj1 (X9_transcript_of_whole_turns Demo.dumps
                   [Demo.says Demo.env_ok "agree"; Demo.says Demo.env_ok "hello"]
                   Demo.fresh _)).
  constructor.
Defined.

(** X10. In a session, a row appended to [chat_sessions] carries the id
    of the customer cached in the context, the serialized context as the
    turn leaves it, consent included, and the time of the turn. *)
Theorem X10_snapshot_row_content
  (json_dumps : pyval -> string) (env : Env) (user_input phone_number : string)
  (s : State) (row : ChatSession) :
  reachable json_dumps s ->
  let s' := post (PrinceChatbot.process_message json_dumps env user_input phone_number s) in
  chat_sessions s' = (chat_sessions s ++ [row])%list ->
  consent_recorded s' /\
  exists c,
    dict_get "customer" (context s') = Some (PDict (PrinceChatbot.customer_dict c)) /\
    row = {| cs_customer_id := PInt (cust_id c);
             cs_context := json_dumps (PDict (context s'));
             cs_start_time := now env |}.
Proof.
  intros R s' E.
  assert (OK : session_ok s').
  { apply reachable_session_ok with (json_dumps := json_dumps).
    apply (reachable_turn json_dumps s
             {| turn_env := env; turn_input := user_input; turn_phone := phone_number |} R). }
  destruct (turn_growth json_dumps env user_input phone_number s)
    as [(CS & _) | (v & a & V & _ & CS)]; fold s' in CS.
  { rewrite CS in E. symmetry in E. now apply app_one_not_nil in E. }
  fold s' in V. rewrite CS in E. apply app_inv_head in E. injection E as <-.
  destruct OK as (_ & [C|(c & C)] & PC).
  { unfold customer_id_value in V. now rewrite C in V. }
  split.
  - apply PC. unfold dict_mem. now rewrite C.
  - exists c. split; auto. rewrite (customer_id_of_row _ _ C) in V.
    now injection V as <-.
Qed.

Lemma X10_witness :
  reachable Demo.dumps Demo.identified /\
  consent_recorded
    (post (PrinceChatbot.process_message Demo.dumps Demo.env_ok "Make a Claim" "0801"
             Demo.identified)).
Proof.
  assert (R : reachable Demo.dumps Demo.identified).
  { apply reachable_session. apply reachable_new. }
  split; [exact R|].
  refine (proj1 (X10_snapshot_row_content Demo.dumps Demo.env_ok "Make a Claim"
                   "0801" Demo.identified _ R _)).
  reflexivity.
Defined.

(** ** Failing generation, missing key *)

Definition saves_context (e : Event) : bool :=
  match e with ESaveChatContext _ _ => true | _ => false end.

(** X5. When the chat completion called on a turn raises, the exception
    leaves [process_message]: nothing is returned, the transcript and
    [chat_sessions] are as before the turn and no insertion is tried; the
    customer resolved for the turn stays in the context. *)
Theorem X5_generation_failure_propagates
  (json_dumps : pyval -> string) (env : Env)
  (user_input phone_number prompt u e : string) (s : State) :
  reachable json_dumps s ->
  let x := PrinceChatbot.process_message json_dumps env user_input phone_number s in
  In (EChatCompletion prompt u) (calls x) ->
  chat_completion env prompt u = Raise e ->
  outcome x = Raise e /\
  chat_history (post x) = chat_history s /\
  chat_sessions (post x) = chat_sessions s /\
  existsb saves_context (calls x) = false /\
  dict_mem "customer" (context (post x)) = true.
Proof.
  intros R x H Gen. apply reachable_session_ok in R.
  destruct (chat_completion_called json_dumps _ _ _ _ _ _ R H)
    as (key & s1 & c & G & I & K & L79 & -> & -> & C).
  destruct (answering_state_gates _ _ _ _ _ G) as (_ & _ & _ & M & _ & CS & CH & _).
  subst x. rewrite (generative_turn json_dumps _ _ _ _ _ _ G I K L79), Gen.
  unfold after, lookup_calls. cbn [outcome post calls fst snd].
  repeat split; auto.
  destruct (dict_mem "customer" (context s)); reflexivity.
Qed.

(** Generation is down. *)
Definition env_chat_down : Env :=
  {| now := 100;
     SERP_API_KEY := Some "k";
     serper := fun _ _ => Ok (JObj [("organic", JList [JObj [("snippet", JStr "W")]])]);
     faiss := fun _ => Ok [Demo.doc_d];
     chat_completion := fun _ _ => Raise "rate limit";
     sqlite_error := fun _ => None |}.

Lemma X5_witness :
  reachable Demo.dumps Demo.identified /\
  outcome (PrinceChatbot.process_message Demo.dumps env_chat_down "what is covered"
             "0801" Demo.identified) = Raise "rate limit".
Proof.
  assert (R : reachable Demo.dumps Demo.identified).
  { apply reachable_session. apply reachable_new. }
  split; [exact R|].
  refine (proj1 (X5_generation_failure_propagates Demo.dumps env_chat_down
                   "what is covered" "0801" _ "what is covered" "rate limit"
                   Demo.identified R _ _)).
  - do 3 right. left. reflexivity.
  - reflexivity.
Defined.

(** X6. Without SERP_API_KEY in the environment an open-ended message of
    an identified customer raises the KeyError of line 52, outside the
    [try] of [google_search]: nothing is sent to the search, to the
    knowledge base or to the chat completion, and the state is untouched. *)
Theorem X6_missing_api_key_raises
  (json_dumps : pyval -> string) (env : Env) (user_input phone_number : string)
  (s : State) :
  reachable json_dumps s ->
  dict_mem "customer" (context s) = true ->
  contains "agent" (lower user_input) = false ->
  PrinceChatbot.is_fixed_intent user_input = false ->
  SERP_API_KEY env = None ->
  PrinceChatbot.process_message json_dumps env user_input phone_number s =
    (Raise "'SERP_API_KEY'", s,
     [EGenerateResponse user_input;
      EGoogleSearch (AIHandler.refined_query user_input)]).
Proof.
  intros R C A I K. apply reachable_session_ok in R.
  pose proof (answering_state_cached env user_input phone_number s R C A) as G.
  rewrite (turn_answers json_dumps _ _ _ _ _ G), (answer_no_key _ _ _ _ I K).
  unfold lookup_calls. now rewrite C.
Qed.


Lemma X6_witness :
  reachable Demo.dumps Demo.identified /\
  outcome (PrinceChatbot.process_message Demo.dumps env_no_key "what is covered"
             "0801" Demo.identified) = Raise "'SERP_API_KEY'".
Proof.
  assert (R : reachable Demo.dumps Demo.identified).
  { apply reachable_session. apply reachable_new. }
  split; [exact R|].
  rewrite (X6_missing_api_key_raises Demo.dumps env_no_key "what is covered"
             "0801" Demo.identified R); reflexivity.
Defined.

(** ** Before consent *)

(** The input neither asks for an agent nor agrees. *)
Definition neither_agent_nor_agree (t : Turn) : bool :=
  negb (contains "agent" (lower (turn_input t)))
  && negb (String.eqb (lower (strip (turn_input t))) "agree").

Section Consent.

Variable json_dumps : pyval -> string.

Import PrinceChatbot.

Lemma unconsented_turn t s :
  dict_mem "privacy" (context s) = false ->
  neither_agent_nor_agree t = true ->
  post (turn json_dumps t s) = s /\ calls (turn json_dumps t s) = [] /\
  (outcome (turn json_dumps t s) = Ok agree_or_exit \/
   outcome (turn json_dumps t s) = Ok please_confirm).
Proof.
  intros P N. unfold neither_agent_nor_agree in N.
  apply andb_true_iff in N. destruct N as (A & G).
  apply negb_true_iff in A, G.
  unfold turn. rewrite process_message_eq, A, P. cbn [negb].
  rewrite privacy_confirmation_eq, G.
  destruct (String.eqb (lower (strip (turn_input t))) "disagree"); auto.
Qed.

Lemma unconsented_session ts s :
  dict_mem "privacy" (context s) = false ->
  forallb neither_agent_nor_agree ts = true ->
  session json_dumps ts s = s /\ concat (session_calls json_dumps ts s) = [].
Proof.
  revert s. induction ts as [|t r IH]; intros s P F; simpl; auto.
  simpl in F. apply andb_true_iff in F. destruct F as (N & F).
  destruct (unconsented_turn t s P N) as (E & C & _).
  rewrite E, C. now apply IH.
Qed.

End Consent.

(** X7. Until the user agrees nothing happens: from a context without the
    privacy flag, a sequence of turns none of which asks for an agent or
    agrees leaves the whole state as it was and calls nobody, whatever the
    inputs and phone numbers; the turn that then agrees, in any letter case
    and with blanks around, records [privacy = True] and returns the menu. *)
Theorem X7_nothing_happens_before_consent
  (json_dumps : pyval -> string) (ts : list Turn) (t : Turn) (s : State) :
  dict_mem "privacy" (context s) = false ->
  forallb neither_agent_nor_agree ts = true ->
  contains "agent" (lower (turn_input t)) = false ->
  lower (strip (turn_input t)) = "agree" ->
  session json_dumps ts s = s /\
  concat (session_calls json_dumps ts s) = [] /\
  turn json_dumps t (session json_dumps ts s) =
    (Ok "Thank you for agreeing to our privacy policy. How can I assist you today? Options: Buy a Product, View Your Policies, Make a Claim, Make a Complaint.",
     consented s, []) /\
  consent_recorded (consented s).
Proof.
  intros P F A G.
  destruct (unconsented_session json_dumps ts s P F) as (E & C).
  rewrite E. repeat split; auto.
  - unfold turn. rewrite process_message_eq, A, P. cbn [negb].
    now rewrite privacy_confirmation_eq, G.
  - unfold consent_recorded, consented. cbn [context set_context].
    apply dict_get_set_same.
Qed.

Lemma X7_witness :
  dict_mem "privacy" (context Demo.fresh) = false /\
  session Demo.dumps
    [Demo.says Demo.env_ok "hello"; Demo.says Demo.env_ok "Disagree";
     Demo.says Demo.env_ok "make a claim"] Demo.fresh = Demo.fresh.
Proof.
  split; [reflexivity|].
  refine (proj1 (X7_nothing_happens_before_consent Demo.dumps
                   [Demo.says Demo.env_ok "hello"; Demo.says Demo.env_ok "Disagree";
                    Demo.says Demo.env_ok "make a claim"]
                   (Demo.says Demo.env_ok "  AGREE ") Demo.fresh _ _ _ _));
    reflexivity.
Defined.

(** ** The phone number and the stores *)

(** X17. Once a customer is cached the [phone_number] argument is
    ignored: the session stays with the customer it resolved, also when
    [process_message] is called with another number. *)
Theorem X17_phone_number_ignored_once_cached
  (json_dumps : pyval -> string) (env : Env)
  (user_input phone_number other_number : string) (s : State) :
  dict_mem "customer" (context s) = true ->
  PrinceChatbot.process_message json_dumps env user_input other_number s =
  PrinceChatbot.process_message json_dumps env user_input phone_number s.
Proof.
  intros C. rewrite !process_message_eq, !identify_then_answer_eq, C.
  reflexivity.
Qed.

Lemma X17_witness :
  dict_mem "customer" (context Demo.identified) = true /\
  PrinceChatbot.process_message Demo.dumps Demo.env_ok "hello" "0000" Demo.identified =
  PrinceChatbot.process_message Demo.dumps Demo.env_ok "hello" "0801" Demo.identified.
Proof.
  split; [reflexivity|].
  apply (X17_phone_number_ignored_once_cached Demo.dumps Demo.env_ok "hello"
           "0801" "0000" Demo.identified).
  reflexivity.
Defined.

Definition asks_for_agent (t : Turn) : bool :=
  contains "agent" (lower (turn_input t)).

(** X18. The chatbot never writes to [customers]; the audit trail, the
    transcript and, through agent requests only, the [agents] table are all
    it changes besides [chat_sessions] and its context: over any sequence
    of turns the audit trail and the transcript only grow at their end, and
    without an input that contains "agent" the [agents] table is as it
    was. *)
Theorem X18_stores_only_grow
  (json_dumps : pyval -> string) (ts : list Turn) (s : State) :
  let s' := session json_dumps ts s in
  customers s' = customers s /\
  extends (audit_trail s) (audit_trail s') /\
  extends (chat_history s) (chat_history s') /\
  (existsb asks_for_agent ts = false -> agents s' = agents s).
Proof.
  cbv zeta.
  revert s. induction ts as [|t r IH]; intros s; simpl.
  { repeat split; auto; apply extends_refl. }
  destruct (IH (post (turn json_dumps t s))) as (C & A & H & G).
  destruct (turn_frame json_dumps (turn_env t) (turn_input t) (turn_phone t) s)
    as (C1 & A1 & H1 & G1). fold (turn json_dumps t s) in C1, A1, H1, G1.
  rewrite C, C1. repeat split.
  - eapply extends_trans; eauto.
  - eapply extends_trans; eauto.
    destruct H1 as [->|(a & ->)]; [apply extends_refl|now eexists].
  - intros N. apply orb_false_iff in N. destruct N as (N1 & N2).
    rewrite (G N2). destruct G1 as [E|(Ag & _)]; auto.
    unfold asks_for_agent in N1. congruence.
Qed.

Lemma X18_witness :
  existsb asks_for_agent
    [Demo.says Demo.env_ok "agree"; Demo.says Demo.env_web_down "hello"] = false /\
  agents (session Demo.dumps
            [Demo.says Demo.env_ok "agree"; Demo.says Demo.env_web_down "hello"]
            Demo.fresh) = agents Demo.fresh.
Proof.
  split; [reflexivity|].
  refine (proj2 (proj2 (proj2 (X18_stores_only_grow Demo.dumps
                   [Demo.says Demo.env_ok "agree"; Demo.says Demo.env_web_down "hello"]
                   Demo.fresh))) _).
  reflexivity.
Defined.

(** ** The command line of app2.py *)

Section Strip.

Lemma lstrip_chars_idempotent l : lstrip_chars (lstrip_chars l) = lstrip_chars l.
Proof.
  induction l as [|c r IH]; simpl; auto.
  destruct (is_space c) eqn:E; auto. simpl. now rewrite E.
Qed.

(** A list that does not start with a blank. *)
Definition no_leading_blank (l : list ascii) : Prop :=
  match l with
  | [] => True
  | c :: _ => is_space c = false
  end.

Lemma lstrip_chars_no_leading_blank l : no_leading_blank (lstrip_chars l).
Proof.
  induction l as [|c r IH]; simpl; auto.
  destruct (is_space c) eqn:E; simpl; auto.
Qed.

Lemma lstrip_chars_fixed l : no_leading_blank l -> lstrip_chars l = l.
Proof. destruct l as [|c r]; simpl; auto. now intros ->. Qed.

Lemma lstrip_chars_last l c :
  is_space c = false -> lstrip_chars (l ++ [c]) = (lstrip_chars l ++ [c])%list.
Proof.
  intros E. induction l as [|a r IH]; simpl.
  - now rewrite E.
  - destruct (is_space a); auto.
Qed.

(** [strip] on the characters. *)
Definition strip_chars (l : list ascii) : list ascii :=
  rev (lstrip_chars (rev (lstrip_chars l))).

Lemma strip_chars_no_leading_blank l : no_leading_blank (strip_chars l).
Proof.
  unfold strip_chars.
  pose proof (lstrip_chars_no_leading_blank l) as H.
  destruct (lstrip_chars l) as [|c m]; simpl in *; auto.
  rewrite (lstrip_chars_last _ _ H), rev_app_distr. simpl. exact H.
Qed.

Lemma strip_chars_idempotent l : strip_chars (strip_chars l) = strip_chars l.
Proof.
  unfold strip_chars at 1.
  rewrite (lstrip_chars_fixed _ (strip_chars_no_leading_blank l)).
  unfold strip_chars. now rewrite rev_involutive, lstrip_chars_idempotent.
Qed.

Lemma strip_idempotent s : strip (strip s) = strip s.
Proof.
  unfold strip. rewrite list_ascii_of_string_of_list_ascii.
  fold (strip_chars (list_ascii_of_string s)).
  fold (strip_chars (strip_chars (list_ascii_of_string s))).
  now rewrite strip_chars_idempotent.
Qed.

End Strip.

Module Cli.

Definition eof : string := "EOF when reading a line".

Section WithJson.

Variable json_dumps : pyval -> string.

(** The collaborators as the n-th message of the run finds them. *)
Variable env_at : nat -> Env.

(** Lines 266 to 271: the lines typed, the state of the chatbot; what is
    written to the terminal.  [input] raises EOFError at the end of the
    input. *)
Fixpoint chat_loop (n : nat) (phone_number : string) (stdin : list string)
  (s : State) : Result unit * State * list string :=
  match stdin with
  | [] => (Raise eof, s, ["You: "])
  | line :: rest =>
      let message := strip line in
      if String.eqb (lower message) "exit" then (Ok tt, s, ["You: "])
      else
        match PrinceChatbot.process_message json_dumps (env_at n) message
                phone_number s with
        | (Ok response, s1, _) =>
            match chat_loop (S n) phone_number rest s1 with
            | (r, s2, out) =>
                (r, s2, "You: " :: ("Bot: " ++ response ++ nl) :: out)
            end
        | (Raise e, s1, _) => (Raise e, s1, ["You: "])
        end
  end.

Definition banner : list string :=
  ["Options:" ++ nl; "1. Start Chatbot" ++ nl; "Choose an option (1): "].

(** [PrinceChatbot(db_path)]: an empty conversation over the database. *)
Definition new_chatbot (db : State) : State :=
  new_session (agents db) (customers db) (chat_sessions db) (audit_trail db).

(** Lines 256 to 271.  [github_token] is [os.environ.get("GITHUB_TOKEN")],
    which [AIHandler.__init__] reads at line 45. *)
Definition main (github_token : option string) (stdin : list string) (db : State)
  : Result unit * State * list string :=
  match stdin with
  | [] => (Raise eof, db, banner)
  | choice :: rest =>
      if String.eqb (strip choice) "1" then
        match github_token with
        | None => (Raise "'GITHUB_TOKEN'", db, banner)
        | Some _ =>
            match rest with
            | [] =>
                (Raise eof, new_chatbot db,
                 (banner ++ ["Enter your phone number to start: "])%list)
            | phone :: messages =>
                match chat_loop 0 (strip phone) messages (new_chatbot db) with
                | (r, s, out) =>
                    (r, s, (banner ++ "Enter your phone number to start: " :: out)%list)
                end
            end
        end
      else (Ok tt, db, banner)
  end.

Lemma chat_loop_strip n phone_number stdin s :
  chat_loop n phone_number (map strip stdin) s = chat_loop n phone_number stdin s.
Proof.
  revert n s. induction stdin as [|line rest IH]; intros n s; simpl; auto.
  rewrite strip_idempotent.
  destruct (String.eqb (lower (strip line)) "exit"); auto.
  destruct (PrinceChatbot.process_message _ _ _ _ _) as [[[response|e] s1] t]; auto.
  now rewrite IH.
Qed.

Lemma chat_loop_exit n phone_number before line rest s :
  lower (strip line) = "exit" ->
  chat_loop n phone_number (before ++ line :: rest) s =
  chat_loop n phone_number (before ++ [line]) s.
Proof.
  intros E. revert n s. induction before as [|l0 r IH]; intros n s; simpl.
  - now rewrite E.
  - destruct (String.eqb (lower (strip l0)) "exit"); auto.
    destruct (PrinceChatbot.process_message _ _ _ _ _) as [[[response|e] s1] t]; auto.
    now rewrite IH.
Qed.

End WithJson.
End Cli.

(** X11. On the command line a typed line reaches [process_message]
    trimmed, so there the fixed intents are matched up to letter case and
    surrounding blanks: for an identified customer, a line whose trimmed
    and lowered form is one of the four intents makes the loop print "Bot: "
    and the canned response, and go on with the next line. *)
Theorem X11_cli_matches_intents_trimmed
  (json_dumps : pyval -> string) (env_at : nat -> Env) (n : nat)
  (phone_number line : string) (rest : list string) (s : State) :
  reachable json_dumps s ->
  dict_mem "customer" (context s) = true ->
  existsb (String.eqb (lower (strip line))) PrinceChatbot.fixed_intents = true ->
  sqlite_error (env_at n) InsertChatSession = None ->
  let x := PrinceChatbot.process_message json_dumps (env_at n) (strip line)
             phone_number s in
  let response := PrinceChatbot.handle_purpose (strip line) in
  canned_for (lower (strip line)) response /\
  outcome x = Ok response /\
  Cli.chat_loop json_dumps env_at n phone_number (line :: rest) s =
    match Cli.chat_loop json_dumps env_at (S n) phone_number rest (post x) with
    | (r, s', out) => (r, s', "You: " :: ("Bot: " ++ response ++ nl) :: out)
    end.
Proof.
  intros R C I Ins x response.
  assert (Cn : canned_for (lower (strip line)) response)
    by now apply fixed_intent_canned.
  assert (O : outcome x = Ok response).
  { subst x response. apply reachable_session_ok in R.
    pose proof (fixed_intent_no_agent _ I) as A.
    pose proof (answering_state_cached (env_at n) (strip line) phone_number s R C A) as G.
    destruct (answering_state_customer _ _ _ _ _ R G) as (c & Cu).
    rewrite (turn_answers json_dumps _ _ _ _ _ G), (answer_intent _ _ _ _ I).
    unfold lookup_calls. rewrite C, after_nil, record_turn_eq.
    now rewrite (customer_id_of_row _ _ Cu), Ins. }
  split; [exact Cn|]. split; [exact O|].
  cbn [Cli.chat_loop].
  assert (E : String.eqb (lower (strip line)) "exit" = false).
  { destruct Cn as [[-> _]|[[-> _]|[[-> _]|[-> _]]]]; reflexivity. }
  rewrite E. fold x. destruct x as [[r s1] t]. cbn in O. subst r. reflexivity.
Qed.

Lemma X11_witness :
  reachable Demo.dumps Demo.identified /\
  outcome (PrinceChatbot.process_message Demo.dumps Demo.env_ok
             (strip "  Make a Claim ") "0801" Demo.identified)
  = Ok "To make a claim, please upload the necessary documents.".
Proof.
  assert (R : reachable Demo.dumps Demo.identified).
  { apply reachable_session. apply reachable_new. }
  split; [exact R|].
  refine (proj1 (proj2 (X11_cli_matches_intents_trimmed Demo.dumps
                          (fun _ => Demo.env_ok) 0 "0801" "  Make a Claim " []
                          Demo.identified R _ _ _))); reflexivity.
Defined.

(** X12. Blanks around what is typed never matter on the command line: the
    choice, the phone number and every message are trimmed before use, and
    trimming is idempotent, so a run on the trimmed lines ends in the same
    way, in the same state and with the same output. *)
Theorem X12_cli_ignores_surrounding_blanks
  (json_dumps : pyval -> string) (env_at : nat -> Env)
  (github_token : option string) (stdin : list string) (db : State) :
  Cli.main json_dumps env_at github_token (map strip stdin) db =
  Cli.main json_dumps env_at github_token stdin db.
Proof.
  destruct stdin as [|choice rest]; [reflexivity|].
  unfold Cli.main. cbn [map]. rewrite strip_idempotent.
  destruct (String.eqb (strip choice) "1"); [|reflexivity].
  destruct github_token; [|reflexivity].
  destruct rest as [|phone messages]; [reflexivity|].
  cbn [map]. now rewrite strip_idempotent, Cli.chat_loop_strip.
Qed.

(** X13. "exit", in any letter case and with blanks around, ends the
    loop before [process_message] sees it, and nothing typed after it is
    read: the run is the run on the lines up to it. *)
Theorem X13_cli_exit_ends_the_loop
  (json_dumps : pyval -> string) (env_at : nat -> Env) (n : nat)
  (phone_number line : string) (before rest : list string) (s : State) :
  lower (strip line) = "exit" ->
  Cli.chat_loop json_dumps env_at n phone_number (line :: rest) s
  = (Ok tt, s, ["You: "]) /\
  Cli.chat_loop json_dumps env_at n phone_number (before ++ line :: rest) s =
  Cli.chat_loop json_dumps env_at n phone_number (before ++ [line]) s.
Proof.
  intros E. split.
  - cbn [Cli.chat_loop]. now rewrite E.
  - now apply Cli.chat_loop_exit.
Qed.

Lemma X13_witness :
  lower (strip " Exit ") = "exit" /\
  Cli.chat_loop Demo.dumps (fun _ => Demo.env_ok) 0 "0801"
    [" Exit "; "agree"; "hello"] Demo.fresh
  = (Ok tt, Demo.fresh, ["You: "]).
Proof.
  split; [reflexivity|].
  apply (proj1 (X13_cli_exit_ends_the_loop Demo.dumps (fun _ => Demo.env_ok) 0
                  "0801" " Exit " [] ["agree"; "hello"] Demo.fresh eq_refl)).
Defined.

(** ** The Streamlit page of stream.py *)

Module Stream.

(** What a run of the script finds around it. *)
Record UiEnv := {
  (** The [sqlite3.Error] of the count of [verify_phone], if any. *)
  count_error : option string;
  (** [os.environ.get("GITHUB_TOKEN")], read by [AIHandler.__init__]. *)
  github_token : option string;
  collaborators : Env
}.

(** [st.session_state], and the program state behind it.  [ss_chatbot]
    tells whether [st.session_state.chatbot] is an object; its conversation
    is the one of [world]. *)
Record App := {
  ss_chat_history : list (string * string);
  ss_phone_verified : bool;
  ss_chatbot : bool;
  ss_phone_number : option string;
  world : State
}.

(** Lines 7 to 14. *)
Definition start (db : State) : App :=
  {| ss_chat_history := []; ss_phone_verified := false; ss_chatbot := false;
     ss_phone_number := None; world := db |}.

(** The widget that triggers a run of the script. *)
Inductive Interaction :=
| Rerun
| Verify (phone_number : string)
| BuyAProduct
| MakeAClaim
| Send (user_input : string)
| ResetChat.

Definition matches_phone (phone_number : string) (c : Customer) : bool :=
  String.eqb (cust_phone c) phone_number.

(** Lines 51 to 62. *)
Definition verify_phone (e : UiEnv) (phone_number : string) (db : State) : bool :=
  match count_error e with
  | Some _ => false
  | None => Nat.ltb 0 (length (filter (matches_phone phone_number) (customers db)))
  end.

Definition set_customers (c : list Customer) (s : State) : State :=
  {| chat_history := chat_history s; context := context s; agents := agents s;
     customers := c; chat_sessions := chat_sessions s;
     audit_trail := audit_trail s |}.

Section WithJson.

Variable json_dumps : pyval -> string.

(** [chatbot.process_message(user_input, st.session_state.phone_number)].
    With [None] for a phone number the parameter of the lookup is NULL and
    [phone = NULL] holds for no row. *)
Definition process_message_of (env : Env) (user_input : string)
  (phone_number : option string) (s : State) : Result string * State :=
  match phone_number with
  | Some p =>
      let x := PrinceChatbot.process_message json_dumps env user_input p s in
      (outcome x, post x)
  | None =>
      let x := PrinceChatbot.process_message json_dumps env user_input ""
                 (set_customers [] s) in
      (outcome x, set_customers (customers s) (post x))
  end.

(** Lines 109 to 113, 117 to 121 and 130 to 133. *)
Definition press (e : UiEnv) (user_input : string) (a : App)
  : Result unit * App * list string :=
  if ss_chatbot a then
    match process_message_of (collaborators e) user_input (ss_phone_number a)
            (world a) with
    | (Ok response, w) =>
        (Ok tt,
         {| ss_chat_history :=
              (ss_chat_history a ++
               [("user", user_input); ("assistant", response)])%list;
            ss_phone_verified := ss_phone_verified a;
            ss_chatbot := ss_chatbot a;
            ss_phone_number := ss_phone_number a;
            world := w |},
         [])
    | (Raise err, w) =>
        (Raise err,
         {| ss_chat_history := ss_chat_history a;
            ss_phone_verified := ss_phone_verified a;
            ss_chatbot := ss_chatbot a;
            ss_phone_number := ss_phone_number a;
            world := w |},
         [])
    end
  else (Raise "'NoneType' object has no attribute 'process_message'", a, []).

(** Lines 75 to 83. *)
Definition verify (e : UiEnv) (phone_number : string) (a : App)
  : Result unit * App * list string :=
  if nonempty phone_number then
    if verify_phone e phone_number (world a) then
      match github_token e with
      | None =>
          (Raise "'GITHUB_TOKEN'",
           {| ss_chat_history := ss_chat_history a;
              ss_phone_verified := true;
              ss_chatbot := ss_chatbot a;
              ss_phone_number := Some phone_number;
              world := world a |},
           [])
      | Some _ =>
          (Ok tt,
           {| ss_chat_history := ss_chat_history a;
              ss_phone_verified := true;
              ss_chatbot := true;
              ss_phone_number := Some phone_number;
              world := Cli.new_chatbot (world a) |},
           ["Phone number verified! You can now start chatting."])
      end
    else (Ok tt, a, ["Phone number not found. Please contact support."])
  else (Ok tt, a, []).

(** Lines 140 to 145. *)
Definition reset (a : App) : App :=
  {| ss_chat_history := []; ss_phone_verified := false; ss_chatbot := false;
     ss_phone_number := None; world := world a |}.

(** One run of [main]: its uncaught exception if any, the session state
    it leaves, and the notices of [st.success] and [st.error]. *)
Definition main (e : UiEnv) (i : Interaction) (a : App)
  : Result unit * App * list string :=
  if negb (ss_phone_verified a) then
    match i with
    | Verify phone_number => verify e phone_number a
    | _ => (Ok tt, a, [])
    end
  else
    match i with
    | BuyAProduct => press e "Buy a Product" a
    | MakeAClaim => press e "Make a Claim" a
    | Send user_input =>
        if nonempty user_input then press e user_input a else (Ok tt, a, [])
    | ResetChat => (Ok tt, reset a, [])
    | _ => (Ok tt, a, [])
    end.

(** The session state after a sequence of runs. *)
Fixpoint browse (runs : list (UiEnv * Interaction)) (a : App) : App :=
  match runs with
  | [] => a
  | (e, i) :: r => browse r (snd (fst (main e i a)))
  end.

End WithJson.
End Stream.

Section Page.

Variable json_dumps : pyval -> string.

Import PrinceChatbot Stream.

Lemma find_customer_matches phone_number s :
  find_customer phone_number s = find (matches_phone phone_number) (customers s).
Proof. reflexivity. Qed.

Lemma find_of_filter {A} (f : A -> bool) l :
  find f l = hd_error (filter f l).
Proof.
  induction l as [|x r IH]; simpl; auto. now destruct (f x).
Qed.

Lemma verify_phone_found e phone_number db :
  verify_phone e phone_number db = true ->
  exists c, find_customer phone_number db = Some c /\ cust_phone c = phone_number.
Proof.
  unfold verify_phone. destruct (count_error e); [discriminate|].
  intros L. rewrite find_customer_matches.
  destruct (find (matches_phone phone_number) (customers db)) as [c|] eqn:F.
  - exists c. split; auto. apply find_some in F. destruct F as (_ & M).
    now apply String.eqb_eq in M.
  - rewrite find_of_filter in F.
    destruct (filter (matches_phone phone_number) (customers db)); discriminate.
Qed.

Lemma get_customer_info_eq env phone_number s :
  get_customer_info env phone_number s =
    match sqlite_error env SelectCustomer with
    | Some e => (Raise e, s, [EGetCustomerInfo phone_number])
    | None =>
        (Ok (match find_customer phone_number s with
             | Some c => PDict (customer_dict c)
             | None => PDict []
             end), s, [EGetCustomerInfo phone_number])
    end.
Proof.
  unfold get_customer_info, sqlite, select_customer, find_customer.
  destruct (sqlite_error env SelectCustomer); reflexivity.
Qed.

(** A lookup that is made and does not raise caches the row it finds. *)
Lemma lookup_caches env user_input phone_number s :
  sqlite_error env SelectCustomer = None ->
  (exists c, find_customer phone_number s = Some c) ->
  let x := process_message json_dumps env user_input phone_number s in
  existsb looks_up_customer (calls x) = true ->
  dict_mem "customer" (context (post x)) = true.
Proof.
  intros S (c & F) x. subst x. rewrite process_message_eq.
  destruct (contains "agent" (lower user_input)).
  { now rewrite agent_request_calls. }
  destruct (negb (dict_mem "privacy" (context s))).
  { now rewrite privacy_confirmation_calls. }
  destruct (privacy_refused (context s)); [discriminate|].
  rewrite identify_then_answer_eq.
  destruct (dict_mem "customer" (context s)) eqn:C.
  { intros _. now rewrite answer_context. }
  rewrite S, F. intros _. unfold after. cbn [post fst snd].
  rewrite answer_context. unfold identified_as. cbn [context set_context].
  apply dict_mem_set_same.
Qed.

(** What holds of the session state of the page over a database whose
    customers are [cu]. *)
Definition page_ok (cu : list Customer) (a : App) : Prop :=
  ss_phone_verified a
  = match ss_phone_number a with Some _ => true | None => false end /\
  (ss_chatbot a = true ->
   ss_phone_verified a = true /\ reachable json_dumps (world a)) /\
  (forall p, ss_phone_number a = Some p ->
             exists c, find_customer p (world a) = Some c /\ cust_phone c = p) /\
  customers (world a) = cu.

Lemma find_customer_same p s s' :
  customers s' = customers s -> find_customer p s' = find_customer p s.
Proof. unfold find_customer. now intros ->. Qed.

Lemma process_message_of_some env user_input p s :
  process_message_of json_dumps env user_input (Some p) s =
    (outcome (process_message json_dumps env user_input p s),
     post (process_message json_dumps env user_input p s)).
Proof. reflexivity. Qed.

Lemma page_ok_press cu e user_input a :
  page_ok cu a -> page_ok cu (snd (fst (press json_dumps e user_input a))).
Proof.
  intros OK. unfold press.
  destruct (ss_chatbot a) eqn:Bot; [|exact OK].
  destruct OK as (V & B & P & C).
  destruct (B Bot) as (Ver & R).
  destruct (ss_phone_number a) as [p|] eqn:Ph; [|congruence].
  rewrite process_message_of_some.
  pose proof (turn_frame json_dumps (collaborators e) user_input p (world a))
    as (Cu & _).
  pose proof (reachable_turn json_dumps (world a)
                {| turn_env := collaborators e; turn_input := user_input;
                   turn_phone := p |} R) as R'.
  unfold turn in R'. cbn [turn_env turn_input turn_phone] in R'.
  destruct (outcome _) as [response|err]; cbn [fst snd];
    unfold page_ok; cbn [ss_phone_verified ss_phone_number ss_chatbot world];
    (repeat split; auto; try congruence);
    intros q Q; rewrite (find_customer_same q _ _ Cu); now apply P.
Qed.

Lemma page_ok_main cu e i a :
  page_ok cu a -> page_ok cu (snd (fst (main json_dumps e i a))).
Proof.
  intros OK. unfold main.
  destruct (ss_phone_verified a) eqn:V; cbn [negb].
  - destruct i; auto using page_ok_press.
    + destruct (nonempty user_input); auto using page_ok_press.
    + destruct OK as (_ & _ & _ & C). unfold page_ok, reset; simpl.
      repeat split; auto; discriminate.
  - destruct i; auto. unfold verify.
    destruct (nonempty phone_number); auto.
    destruct (verify_phone e phone_number (world a)) eqn:Ve; auto.
    destruct (verify_phone_found _ _ _ Ve) as (c & F & Pc).
    destruct OK as (Vn & B & _ & C).
    destruct (github_token e); unfold page_ok; simpl.
    + split; [reflexivity|].
      split; [intros _; split; [reflexivity|apply reachable_new]|].
      split; [|exact C]. intros q [= <-]. now exists c.
    + split; [reflexivity|].
      split; [intros Bot; destruct (B Bot) as (Ver & _); congruence|].
      split; [|exact C]. intros q [= <-]. now exists c.
Qed.

Lemma page_ok_browse cu runs a :
  page_ok cu a -> page_ok cu (browse json_dumps runs a).
Proof.
  revert a. induction runs as [|[e i] r IH]; intros a OK; simpl; auto.
  apply IH. now apply page_ok_main.
Qed.

Lemma page_ok_start db : page_ok (customers db) (start db).
Proof. unfold page_ok, start; simpl. repeat split; auto; discriminate. Qed.

End Page.

(** X14. The check of the page and the lookup of the chatbot agree: on
    one database [verify_phone] accepts a phone number exactly when
    [get_customer_info] returns a non-empty dictionary for it, and a
    database error in the check refuses the number. *)
Theorem X14_verify_phone_agrees_with_lookup
  (e : Stream.UiEnv) (env : Env) (phone_number : string) (db : State) :
  sqlite_error env SelectCustomer = None ->
  exists v,
    PrinceChatbot.get_customer_info env phone_number db
    = (Ok v, db, [EGetCustomerInfo phone_number]) /\
    Stream.verify_phone e phone_number db =
      match Stream.count_error e with
      | Some _ => false
      | None => truthy v
      end.
Proof.
  intros S. rewrite get_customer_info_eq, S. eexists. split; [reflexivity|].
  unfold Stream.verify_phone. destruct (Stream.count_error e); [reflexivity|].
  rewrite find_customer_matches, find_of_filter.
  now destruct (filter (Stream.matches_phone phone_number) (customers db)).
Qed.

Definition ui_ok : Stream.UiEnv :=
  {| Stream.count_error := None; Stream.github_token := Some "t";
     Stream.collaborators := Demo.env_ok |}.

Lemma X14_witness :
  sqlite_error Demo.env_ok SelectCustomer = None /\
  Stream.verify_phone ui_ok "0801" Demo.fresh = true /\
  Stream.verify_phone ui_ok "0000" Demo.fresh = false.
Proof.
  split; [reflexivity|].
  destruct (X14_verify_phone_agrees_with_lookup ui_ok Demo.env_ok "0801"
              Demo.fresh eq_refl) as (v & _ & _).
  split; reflexivity.
Defined.

(** X15. Whatever is clicked and typed on the page, starting from the
    session state of lines 7 to 14: the phone is marked verified exactly
    when a phone number is stored; a chatbot exists only for a verified
    phone; the stored number is the phone of a row of [customers]; and the
    page never changes [customers]. *)
Theorem X15_page_session_state
  (json_dumps : pyval -> string) (runs : list (Stream.UiEnv * Stream.Interaction))
  (db : State) :
  let a := Stream.browse json_dumps runs (Stream.start db) in
  Stream.ss_phone_verified a
  = match Stream.ss_phone_number a with Some _ => true | None => false end /\
  (Stream.ss_chatbot a = true ->
   Stream.ss_phone_verified a = true /\ reachable json_dumps (Stream.world a)) /\
  (forall p, Stream.ss_phone_number a = Some p ->
             exists c, find_customer p (Stream.world a) = Some c /\ cust_phone c = p) /\
  customers (Stream.world a) = customers db.
Proof. apply page_ok_browse. apply page_ok_start. Qed.

(** X16. On the page the identity gate does not fail: the chatbot is
    called with the verified phone number, and every customer lookup it
    makes, unless the statement raises, finds the row and caches it. *)
Theorem X16_page_lookup_resolves
  (json_dumps : pyval -> string) (runs : list (Stream.UiEnv * Stream.Interaction))
  (db : State) (e : Stream.UiEnv) (user_input : string) :
  let a := Stream.browse json_dumps runs (Stream.start db) in
  Stream.ss_chatbot a = true ->
  sqlite_error (Stream.collaborators e) SelectCustomer = None ->
  exists p,
    Stream.ss_phone_number a = Some p /\
    let x := PrinceChatbot.process_message json_dumps (Stream.collaborators e)
               user_input p (Stream.world a) in
    Stream.process_message_of json_dumps (Stream.collaborators e) user_input
      (Stream.ss_phone_number a) (Stream.world a) = (outcome x, post x) /\
    (existsb looks_up_customer (calls x) = true ->
     dict_mem "customer" (context (post x)) = true).
Proof.
  intros a Bot S.
  destruct (page_ok_browse json_dumps (customers db) runs (Stream.start db)
              (page_ok_start json_dumps db)) as (V & B & P & _).
  fold a in V, B, P. destruct (B Bot) as (Ver & _).
  destruct (Stream.ss_phone_number a) as [p|] eqn:Ph; [|congruence].
  exists p. split; [reflexivity|]. split; [reflexivity|].
  destruct (P p eq_refl) as (c & F & _).
  apply lookup_caches; eauto.
Qed.

Lemma X16_witness :
  Stream.ss_chatbot
    (Stream.browse Demo.dumps
       [(ui_ok, Stream.Verify "0801"); (ui_ok, Stream.Send "agree")]
       (Stream.start Demo.fresh)) = true /\
  dict_mem "customer"
    (context (post (PrinceChatbot.process_message Demo.dumps Demo.env_ok "hello" "0801"
                      (Stream.world
                         (Stream.browse Demo.dumps
                            [(ui_ok, Stream.Verify "0801"); (ui_ok, Stream.Send "agree")]
                            (Stream.start Demo.fresh)))))) = true.
Proof.
  split; [reflexivity|].
  destruct (X16_page_lookup_resolves Demo.dumps
              [(ui_ok, Stream.Verify "0801"); (ui_ok, Stream.Send "agree")]
              Demo.fresh ui_ok "hello" eq_refl eq_refl) as (p & Ph & _ & H).
  injection Ph as <-. apply H. reflexivity.
Defined.

(** X19. The two quick-action buttons send "Buy a Product" and "Make a
    Claim", which are fixed intents.  They do not pass the consent gate:
    before consent the page shows the request to confirm the privacy policy
    and the chatbot is as it was.  For an identified customer whose snapshot
    is stored, the page shows the canned responses. *)
Theorem X19_quick_action_buttons
  (json_dumps : pyval -> string) (e : Stream.UiEnv) (a : Stream.App) (p : string) :
  Stream.ss_phone_verified a = true ->
  Stream.ss_chatbot a = true ->
  Stream.ss_phone_number a = Some p ->
  reachable json_dumps (Stream.world a) ->
  let buy := snd (fst (Stream.main json_dumps e Stream.BuyAProduct a)) in
  let claim := snd (fst (Stream.main json_dumps e Stream.MakeAClaim a)) in
  (dict_mem "privacy" (context (Stream.world a)) = false ->
   Stream.world buy = Stream.world a /\ Stream.world claim = Stream.world a /\
   Stream.ss_chat_history buy =
     (Stream.ss_chat_history a ++
      [("user", "Buy a Product");
       ("assistant", "Hello! Please confirm you agree to our privacy policy to proceed. Type 'Agree' or 'Disagree'.")])%list /\
   Stream.ss_chat_history claim =
     (Stream.ss_chat_history a ++
      [("user", "Make a Claim");
       ("assistant", "Hello! Please confirm you agree to our privacy policy to proceed. Type 'Agree' or 'Disagree'.")])%list) /\
  (dict_mem "customer" (context (Stream.world a)) = true ->
   sqlite_error (Stream.collaborators e) InsertChatSession = None ->
   Stream.ss_chat_history buy =
     (Stream.ss_chat_history a ++
      [("user", "Buy a Product");
       ("assistant", "What category of insurance would you like? Options: Life, Health, Motor, Personal Accident.")])%list /\
   Stream.ss_chat_history claim =
     (Stream.ss_chat_history a ++
      [("user", "Make a Claim");
       ("assistant", "To make a claim, please upload the necessary documents.")])%list).
Proof.
  intros V Bot Ph R buy claim. subst buy claim.
  unfold Stream.main, Stream.press. rewrite V, Bot, Ph. cbn [negb].
  rewrite !process_message_of_some. split.
  - intros P.
    assert (E : forall u,
               contains "agent" (lower u) = false ->
               String.eqb (lower (strip u)) "agree" = false ->
               String.eqb (lower (strip u)) "disagree" = false ->
               PrinceChatbot.process_message json_dumps (Stream.collaborators e) u p
                 (Stream.world a)
               = (Ok PrinceChatbot.please_confirm, Stream.world a, [])).
    { intros u A G D.
      now rewrite process_message_eq, A, P, privacy_confirmation_eq, G, D. }
    rewrite !E by reflexivity. now repeat split.
  - intros C Ins. apply reachable_session_ok in R.
    destruct (fixed_intent_turn json_dumps (Stream.collaborators e) "Buy a Product" p
                (Stream.world a) R C eq_refl eq_refl) as (_ & B).
    destruct (fixed_intent_turn json_dumps (Stream.collaborators e) "Make a Claim" p
                (Stream.world a) R C eq_refl eq_refl) as (_ & M).
    rewrite (B Ins), (M Ins). now split.
Qed.

Lemma X19_witness :
  reachable Demo.dumps Demo.fresh /\
  Stream.ss_chat_history
    (snd (fst (Stream.main Demo.dumps ui_ok Stream.BuyAProduct
                 {| Stream.ss_chat_history := []; Stream.ss_phone_verified := true;
                    Stream.ss_chatbot := true; Stream.ss_phone_number := Some "0801";
                    Stream.world := Demo.fresh |})))
  = [("user", "Buy a Product");
     ("assistant", "Hello! Please confirm you agree to our privacy policy to proceed. Type 'Agree' or 'Disagree'.")].
Proof.
  assert (R : reachable Demo.dumps Demo.fresh) by apply reachable_new.
  split; [exact R|].
  refine (proj1 (proj2 (proj2 (proj1 (X19_quick_action_buttons Demo.dumps ui_ok
            {| Stream.ss_chat_history := []; Stream.ss_phone_verified := true;
               Stream.ss_chatbot := true; Stream.ss_phone_number := Some "0801";
               Stream.world := Demo.fresh |} "0801" eq_refl eq_refl eq_refl R) _)))).
  reflexivity.
Defined.

(** ** Agent requests and consent, once more *)

Definition touches_conversation (e : Event) : bool :=
  routes_or_generates e || looks_up_customer e || saves_context e.

(** X8. An input that contains "agent" is answered before every gate,
    whatever the consent and the identity: the turn is the escalation only.
    It leaves the context, the transcript, [chat_sessions] and [customers]
    as they were, and looks nobody up, routes nothing, generates nothing and
    saves no snapshot, also when a statement on [agents] raises. *)
Theorem X8_agent_request_bypasses_the_conversation
  (json_dumps : pyval -> string) (env : Env) (user_input phone_number : string)
  (s : State) :
  contains "agent" (lower user_input) = true ->
  let x := PrinceChatbot.process_message json_dumps env user_input phone_number s in
  context (post x) = context s /\
  chat_history (post x) = chat_history s /\
  chat_sessions (post x) = chat_sessions s /\
  customers (post x) = customers s /\
  existsb touches_conversation (calls x) = false.
Proof.
  intros A x. subst x. rewrite process_message_eq, A, agent_request_eq.
  destruct (sqlite_error env SelectAgent); [now repeat split|].
  destruct (PrinceChatbot.select_available_agent (agents s)); [|now repeat split].
  destruct (sqlite_error env UpdateAgent); now repeat split.
Qed.

Lemma X8_witness :
  contains "agent" (lower "Agent, please") = true /\
  context (post (PrinceChatbot.process_message Demo.dumps Demo.env_ok "Agent, please"
                   "0801" Demo.fresh)) = context Demo.fresh.
Proof.
  split; [reflexivity|].
  apply (X8_agent_request_bypasses_the_conversation Demo.dumps Demo.env_ok
           "Agent, please" "0801" Demo.fresh).
  reflexivity.
Defined.

Section Withdrawal.

Variable json_dumps : pyval -> string.

Lemma privacy_kept_turn t s v :
  dict_get "privacy" (context s) = Some v ->
  dict_get "privacy" (context (post (turn json_dumps t s))) = Some v.
Proof.
  intros P. unfold turn.
  destruct (turn_context json_dumps (turn_env t) (turn_input t) (turn_phone t) s)
    as [E | [[M _] | (_ & _ & _ & c & E)]].
  - now rewrite E.
  - unfold dict_mem in M. now rewrite P in M.
  - rewrite E. now rewrite dict_get_set_other.
Qed.

End Withdrawal.

(** X21. Consent cannot be withdrawn in a session: once the context
    holds the privacy flag no turn removes or changes it, whatever is sent
    afterwards, "disagree" included. *)
Theorem X21_consent_is_never_withdrawn
  (json_dumps : pyval -> string) (ts : list Turn) (s : State) :
  consent_recorded s ->
  consent_recorded (session json_dumps ts s).
Proof.
  unfold consent_recorded. revert s.
  induction ts as [|t r IH]; intros s P; simpl; auto.
  apply IH. now apply privacy_kept_turn.
Qed.

Lemma X21_witness :
  consent_recorded Demo.identified /\
  consent_recorded
    (session Demo.dumps [Demo.says Demo.env_ok "disagree"] Demo.identified).
Proof.
  split; [reflexivity|].
  apply (X21_consent_is_never_withdrawn Demo.dumps
           [Demo.says Demo.env_ok "disagree"] Demo.identified).
  reflexivity.
Defined.

(** ** A reply that line 79 cannot read *)


